(** * A storefront: catalogue, cart, checkout against stock, accounts

    Shallow embedding of the request handlers of [app.py] (a Flask
    application over an SQLAlchemy store) and the properties of the cart and
    checkout logic.

    - a table is the list of its rows, in rowid order;
    - a request handler is a function from the request and the database to
      a [Reply]: the response, the flashed messages, the database after the
      handler's commit and the login session;
    - what the handlers take from their platform (Python's [int] and [sum],
      float arithmetic and the order on prices, the store's substring
      match, the password hashing) is the interface [Platform]. *)

From Stdlib Require Import ZArith List String Ascii Bool Lia.
From Stdlib Require Import Sorted Permutation DecimalString.
Import ListNotations.

Local Open Scope string_scope.
Local Open Scope Z_scope.

Set Implicit Arguments.

(** ** Python builtins used by the handlers *)

Module Py.

(** [s.split(sep)] for a one-character separator. *)
Fixpoint split (sep : ascii) (s : string) : list string :=
  match s with
  | EmptyString => [EmptyString]
  | String c rest =>
      if Ascii.eqb c sep then EmptyString :: split sep rest
      else match split sep rest with
           | [] => [String c EmptyString]
           | w :: ws => String c w :: ws
           end
  end.

(** [s.startswith(p)]. *)
Definition startswith (s p : string) : bool := String.prefix p s.

(** [str(n)] for an integer, as an f-string formats it. *)
Definition str (n : Z) : string := NilZero.string_of_int (Z.to_int n).

(** [l[i]]: [None] stands for [IndexError]. *)
Definition index {A} (l : list A) (i : nat) : option A := nth_error l i.

(** The ASCII fragment of [int(s)] on strings: an optional sign and
    decimal digits; [None] stands for [ValueError]. *)
Fixpoint digits (s : string) (acc : Z) : option Z :=
  match s with
  | EmptyString => Some acc
  | String c rest =>
      let n := Z.of_nat (nat_of_ascii c) in
      if (48 <=? n) && (n <=? 57) then digits rest (10 * acc + (n - 48))
      else None
  end.

Definition unsigned (s : string) : option Z :=
  match s with
  | EmptyString => None
  | _ => digits s 0
  end.

Definition int_ascii (s : string) : option Z :=
  match s with
  | String "-"%char rest => option_map Z.opp (unsigned rest)
  | String "+"%char rest => unsigned rest
  | _ => unsigned s
  end.

End Py.

(** ** The option monad, for lookups that raise *)

Definition bind {A B} (o : option A) (k : A -> option B) : option B :=
  match o with
  | Some a => k a
  | None => None
  end.

Notation "x <- o ;; k" := (bind o (fun x => k))
  (at level 61, o at next level, right associativity).

Fixpoint mapM {A B} (f : A -> option B) (l : list A) : option (list B) :=
  match l with
  | [] => Some []
  | a :: rest => b <- f a;; bs <- mapM f rest;; Some (b :: bs)
  end.

Fixpoint foldM {A S} (f : S -> A -> option S) (l : list A) (s : S) : option S :=
  match l with
  | [] => Some s
  | a :: rest => s' <- f s a;; foldM f rest s'
  end.

(** ** Models

    A record for every model class, a field for every column. The [Float]
    columns have the type [float], a parameter of the development. The
    foreign key [category_id] of a product is optional, since the join of
    [home] tells a null key apart; the other columns hold a value in every
    row the application writes. *)

Module User.
Record t := mk {
  id : Z;
  email : string;
  password : string;
  name : string;
  address : string }.
End User.

Module Category.
Record t := mk {
  id : Z;
  name : string }.
End Category.

Module Product.
Record t (float : Type) := mk {
  id : Z;
  name : string;
  description : string;
  price : float;
  image : string;
  category_id : option Z;
  stock : Z }.
Arguments mk {float}.

Definition with_stock {float} (v : Z) (p : t float) : t float :=
  mk (id p) (name p) (description p) (price p) (image p) (category_id p) v.

Definition with_price {float} (v : float) (p : t float) : t float :=
  mk (id p) (name p) (description p) v (image p) (category_id p) (stock p).
End Product.

Module Order.
Record t (float : Type) := mk {
  id : Z;
  user_id : Z;
  total : float;
  date : Z }.
Arguments mk {float}.
End Order.

Module OrderItem.
Record t (float : Type) := mk {
  id : Z;
  order_id : Z;
  product_id : Z;
  quantity : Z;
  price : float }.
Arguments mk {float}.
End OrderItem.

Module CartItem.
Record t := mk {
  id : Z;
  user_id : Z;
  product_id : Z;
  quantity : Z }.

Definition with_quantity (q : Z) (c : t) : t :=
  mk (id c) (user_id c) (product_id c) q.
End CartItem.

(** ** The store *)

Record Db (float : Type) := mkDb {
  users : list User.t;
  categories : list Category.t;
  products : list (Product.t float);
  orders : list (Order.t float);
  order_items : list (OrderItem.t float);
  cart_items : list CartItem.t }.
Arguments mkDb {float}.

(** The id the store gives the next row of a table: one more than the
    largest in use. *)
Definition next_id (ids : list Z) : Z := Z.succ (fold_right Z.max 0 ids).

(** What the handlers take from Python, the store and werkzeug. *)
Class Platform (float : Type) := {
  (** [int(s)] on a string; [None] is [ValueError] *)
  py_int : string -> option Z;
  (** [price * quantity], a float by an integer *)
  float_mul : float -> Z -> float;
  (** [sum(...)] of floats *)
  py_sum : list float -> float;
  (** the store's order on the price column *)
  float_leb : float -> float -> bool;
  (** [column.contains(s)]: the store's [LIKE '%s%'] *)
  sql_contains : string -> string -> bool;
  (** [generate_password_hash], with the salt it draws made explicit *)
  generate_password_hash : string -> string -> string;
  check_password_hash : string -> string -> bool }.

(** ** Requests and replies *)

(** [request.args] and [request.form]: the submitted pairs, in order. *)
Module MultiDict.
Definition t := list (string * string).

(** [d.get(k)], [d[k]]: the first value of the key. *)
Fixpoint get (k : string) (d : t) : option string :=
  match d with
  | [] => None
  | (k', v) :: rest => if String.eqb k' k then Some v else get k rest
  end.

(** [k in d]. *)
Definition contains (k : string) (d : t) : bool :=
  match get k d with
  | Some _ => true
  | None => false
  end.

(** [d.items()]: every key once, with its first value. *)
Fixpoint items_from (seen : list string) (d : t) : list (string * string) :=
  match d with
  | [] => []
  | (k, v) :: rest =>
      if existsb (String.eqb k) seen then items_from seen rest
      else (k, v) :: items_from (k :: seen) rest
  end.

Definition items (d : t) : list (string * string) := items_from [] d.
End MultiDict.

Inductive Method := GET | POST.

Record Request := mkRequest {
  method : Method;
  args : MultiDict.t;
  form : MultiDict.t;
  (** the user id flask-login keeps in the session cookie *)
  session : option Z;
  (** [datetime.utcnow()] during the request *)
  now : Z;
  (** the salt [generate_password_hash] draws during the request *)
  salt : string }.

(** [query.paginate(...)]: the rows of the page and the size of the query. *)
Record Pagination (float : Type) := mkPagination {
  items : list (Product.t float);
  page : Z;
  per_page : Z;
  total : Z }.
Arguments mkPagination {float}.

(** What a template is rendered with. *)
Inductive Context (float : Type) :=
| HomeCtx (products : Pagination float) (categories : list Category.t)
| ProductCtx (product : Product.t float)
| CartCtx (cart_items : list CartItem.t) (total : float)
| OrdersCtx (orders : list (Order.t float))
| NoCtx.
Arguments HomeCtx {float}.
Arguments ProductCtx {float}.
Arguments CartCtx {float}.
Arguments OrdersCtx {float}.
Arguments NoCtx {float}.

Inductive Response (float : Type) :=
| Redirect (endpoint : string)
| Render (template : string) (context : Context float)
| Abort (status : Z)
| Raised.
Arguments Redirect {float}.
Arguments Render {float}.
Arguments Abort {float}.
Arguments Raised {float}.

(** The outcome of a request: [db_after] is the store once the request is
    over, the handler's writes included only if it committed them. *)
Record Reply (float : Type) := mkReply {
  response : Response float;
  flashed : list string;
  db_after : Db float;
  session_after : option Z }.
Arguments mkReply {float}.

Section Handlers.

Context {float : Type} `{Platform float}.

(** A reply that leaves the store and the session as they were. *)
Definition reply (r : Response float) (msgs : list string)
           (req : Request) (db : Db float) : Reply float :=
  mkReply r msgs db (session req).

(** An uncaught exception: a 500 response, nothing committed. *)
Definition raised (req : Request) (db : Db float) : Reply float :=
  reply Raised [] req db.

(** [load_user]: [User.query.get(user_id)]. *)
Definition load_user (db : Db float) (user_id : Z) : option User.t :=
  find (fun u => User.id u =? user_id) (users db).

(** [@login_required]: the view runs for the user of the session; without
    one flask-login flashes its message and redirects to [login_view]. *)
Definition login_required (view : User.t -> Request -> Db float -> Reply float)
           (req : Request) (db : Db float) : Reply float :=
  match uid <- session req;; load_user db uid with
  | Some current_user => view current_user req db
  | None =>
      reply (Redirect "login") ["Please log in to access this page."] req db
  end.

(** *** Queries and writes *)

(** [CartItem.query.filter_by(user_id=current_user.id).all()] *)
Definition user_cart (db : Db float) (u : User.t) : list CartItem.t :=
  filter (fun it => CartItem.user_id it =? User.id u) (cart_items db).

(** [Product.query.get(id)] *)
Definition get_product (db : Db float) (id : Z) : option (Product.t float) :=
  find (fun p => Product.id p =? id) (products db).

(** [item.product]: the relationship of a cart line; [None] when no
    product has the line's [product_id]. *)
Definition product_of (db : Db float) (item : CartItem.t) : option (Product.t float) :=
  get_product db (CartItem.product_id item).

(** [order.items]: the order items of an order *)
Definition order_lines (db : Db float) (o : Order.t float)
  : list (OrderItem.t float) :=
  filter (fun oi => OrderItem.order_id oi =? Order.id o) (order_items db).

(** [db.session.add(order)] *)
Definition add_order (o : Order.t float) (db : Db float) : Db float :=
  mkDb (users db) (categories db) (products db) (orders db ++ [o])
       (order_items db) (cart_items db).

(** [db.session.add(order_item)] *)
Definition add_order_item (oi : OrderItem.t float) (db : Db float) : Db float :=
  mkDb (users db) (categories db) (products db) (orders db)
       (order_items db ++ [oi]) (cart_items db).

(** [product.stock = v] for the product of this id *)
Definition set_stock (id v : Z) (db : Db float) : Db float :=
  mkDb (users db) (categories db)
       (map (fun p => if Product.id p =? id then Product.with_stock v p else p)
            (products db))
       (orders db) (order_items db) (cart_items db).

(** [db.session.delete(item)] *)
Definition delete_cart_item (item : CartItem.t) (db : Db float) : Db float :=
  mkDb (users db) (categories db) (products db) (orders db) (order_items db)
       (filter (fun c => negb (CartItem.id c =? CartItem.id item))
               (cart_items db)).

(** *** checkout *)

Inductive StockCheck :=
| Available
| NotEnough (p : Product.t float)
| NoProduct.

(** The first loop: the first line that asks for more than the stock of
    its product stops the checkout. *)
Fixpoint check_stock (db : Db float) (cart : list CartItem.t) : StockCheck :=
  match cart with
  | [] => Available
  | item :: rest =>
      match product_of db item with
      | None => NoProduct
      | Some p =>
          if Product.stock p <? CartItem.quantity item then NotEnough p
          else check_stock db rest
      end
  end.

(** [item.product.price * item.quantity] *)
Definition line_total (db : Db float) (item : CartItem.t) : option float :=
  p <- product_of db item;;
  Some (float_mul (Product.price p) (CartItem.quantity item)).

(** [sum(item.product.price * item.quantity for item in cart_items)] *)
Definition cart_total (db : Db float) (cart : list CartItem.t) : option float :=
  ts <- mapM (line_total db) cart;; Some (py_sum ts).

(** The body of the second loop, on the session's pending state: the
    product is read from that state, so two lines of one product see each
    other's decrement. *)
Definition place_line (order_id : Z) (st : Db float) (item : CartItem.t) : option (Db float) :=
  p <- product_of st item;;
  let order_item :=
    OrderItem.mk (next_id (map (@OrderItem.id float) (order_items st)))
                 order_id (CartItem.product_id item)
                 (CartItem.quantity item) (Product.price p) in
  let st := add_order_item order_item st in
  let st := set_stock (Product.id p)
                      (Z.max 0 (Product.stock p - CartItem.quantity item)) st in
  Some (delete_cart_item item st).

Definition not_enough_stock (p : Product.t float) : string :=
  "Not enough stock for " ++ Product.name p ++ ". Available: "
    ++ Py.str (Product.stock p).

Definition checkout (current_user : User.t) (req : Request) (db : Db float) : Reply float :=
  match method req with
  | POST =>
      let cart_items := user_cart db current_user in
      match cart_items with
      | [] => reply (Redirect "cart") ["Cart is empty!"] req db
      | _ =>
          match check_stock db cart_items with
          | NoProduct => raised req db
          | NotEnough p => reply (Redirect "cart") [not_enough_stock p] req db
          | Available =>
              match
                total <- cart_total db cart_items;;
                let order :=
                  Order.mk (next_id (map (@Order.id float) (orders db)))
                           (User.id current_user) total (now req) in
                foldM (place_line (Order.id order)) cart_items
                      (add_order order db)
              with
              | Some db' =>
                  mkReply (Redirect "orders") ["Order placed successfully!"]
                          db' (session req)
              | None => raised req db
              end
          end
      end
  | GET =>
      let cart_items := user_cart db current_user in
      match cart_total db cart_items with
      | Some total =>
          reply (Render "checkout.html" (CartCtx cart_items total)) [] req db
      | None => raised req db
      end
  end.

(** *** cart *)

(** [CartItem.query.filter_by(user_id=current_user.id,
    product_id=product_id).first()] *)
Definition find_cart_item (db : Db float) (u : User.t) (product_id : Z)
  : option CartItem.t :=
  find (fun c => (CartItem.user_id c =? User.id u)
                 && (CartItem.product_id c =? product_id))
       (cart_items db).

(** [cart_item.quantity = quantity] *)
Definition set_quantity (item : CartItem.t) (quantity : Z) (db : Db float)
  : Db float :=
  mkDb (users db) (categories db) (products db) (orders db) (order_items db)
       (map (fun c => if CartItem.id c =? CartItem.id item
                      then CartItem.with_quantity quantity c else c)
            (cart_items db)).

(** [db.session.add(cart_item)] *)
Definition add_cart_item (item : CartItem.t) (db : Db float) : Db float :=
  mkDb (users db) (categories db) (products db) (orders db) (order_items db)
       (cart_items db ++ [item]).

(** The body of the update loop for one field of the form. A key or a
    value that does not parse is skipped ([continue]). *)
Definition update_field (u : User.t) (st : Db float) (field : string * string)
  : Db float :=
  let (key, value) := field in
  if Py.startswith key "quantity_" then
    match
      id <- Py.index (Py.split "_" key) 1;;
      product_id <- py_int id;;
      quantity <- py_int value;;
      Some (product_id, quantity)
    with
    | None => st
    | Some (product_id, quantity) =>
        let quantity := Z.max 1 quantity in
        let quantity := Z.min quantity 100 in
        match find_cart_item st u product_id with
        | Some cart_item => set_quantity cart_item quantity st
        | None => st
        end
    end
  else st.

(** The POST part of [cart]: the bulk update or the removal of a line. *)
Definition cart_post (u : User.t) (req : Request) (db : Db float) : Db float :=
  if MultiDict.contains "update" (form req) then
    fold_left (update_field u) (MultiDict.items (form req)) db
  else if MultiDict.contains "remove" (form req) then
    match v <- MultiDict.get "remove" (form req);; py_int v with
    | Some product_id =>
        match find_cart_item db u product_id with
        | Some cart_item => delete_cart_item cart_item db
        | None => db
        end
    | None => db
    end
  else db.

Definition cart (current_user : User.t) (req : Request) (db : Db float)
  : Reply float :=
  let db :=
    match method req with
    | POST => cart_post current_user req db
    | GET => db
    end in
  let cart_items := user_cart db current_user in
  match cart_total db cart_items with
  | Some total =>
      mkReply (Render "cart.html" (CartCtx cart_items total)) [] db
              (session req)
  | None => mkReply Raised [] db (session req)
  end.

(** *** add_to_cart *)

Definition add_to_cart (product_id : Z) (current_user : User.t)
           (req : Request) (db : Db float) : Reply float :=
  match get_product db product_id with
  | None => reply (Abort 404) [] req db
  | Some prod =>
      let db :=
        match find_cart_item db current_user product_id with
        | Some cart_item =>
            set_quantity cart_item
                         (Z.min (CartItem.quantity cart_item + 1) 100) db
        | None =>
            add_cart_item
              (CartItem.mk (next_id (map CartItem.id (cart_items db)))
                           (User.id current_user) product_id 1) db
        end in
      mkReply (Redirect "home") ["Added to cart!"] db (session req)
  end.

(** *** home *)

(** [Product.query.join(Category)]: a product row for every category row
    whose id is the product's [category_id]. *)
Definition join_category (db : Db float) : list (Product.t float) :=
  flat_map
    (fun p =>
       map (fun _ => p)
           (filter (fun c =>
                      match Product.category_id p with
                      | Some cid => Category.id c =? cid
                      | None => false
                      end)
                   (categories db)))
    (products db).

(** [order_by]: a stable sort of the rows by the given order. *)
Fixpoint insert_by {A} (leb : A -> A -> bool) (x : A) (l : list A) : list A :=
  match l with
  | [] => [x]
  | y :: rest => if leb x y then x :: l else y :: insert_by leb x rest
  end.

Definition order_by {A} (leb : A -> A -> bool) (l : list A) : list A :=
  fold_right (insert_by leb) [] l.

(** [query.paginate(page=page, per_page=per_page, error_out=False)]: a page
    below 1 is page 1; the rows are those of [LIMIT per_page OFFSET
    (page - 1) * per_page]. *)
Definition paginate (page per_page : Z) (query : list (Product.t float))
  : Pagination float :=
  let page := if page <? 1 then 1 else page in
  mkPagination
    (firstn (Z.to_nat per_page)
            (skipn (Z.to_nat ((page - 1) * per_page)) query))
    page per_page (Z.of_nat (List.length query)).

(** [if s:] on an optional string: present and not empty. *)
Definition truthy (s : option string) : bool :=
  match s with
  | Some (String _ _) => true
  | _ => false
  end.

Definition price_asc (a b : Product.t float) : bool :=
  float_leb (Product.price a) (Product.price b).

Definition price_desc (a b : Product.t float) : bool :=
  float_leb (Product.price b) (Product.price a).

Definition name_asc (a b : Product.t float) : bool :=
  String.leb (Product.name a) (Product.name b).

(** The query of [home] before pagination. *)
Definition home_query (req : Request) (db : Db float) : list (Product.t float) :=
  let search := MultiDict.get "search" (args req) in
  let category_id := MultiDict.get "category" (args req) in
  let sort :=
    match MultiDict.get "sort" (args req) with
    | Some s => s
    | None => "name"
    end in
  let query := join_category db in
  let query :=
    match search with
    | Some s =>
        if truthy search
        then filter (fun p => sql_contains (Product.name p) s) query
        else query
    | None => query
    end in
  let query :=
    match category_id with
    | Some c =>
        if truthy category_id then
          match py_int c with
          | Some cid =>
              filter (fun p =>
                        match Product.category_id p with
                        | Some k => k =? cid
                        | None => false
                        end) query
          | None => query
          end
        else query
    | None => query
    end in
  if String.eqb sort "price_low" then order_by price_asc query
  else if String.eqb sort "price_high" then order_by price_desc query
  else order_by name_asc query.

(** The page of [home]: [request.args.get('page', 1, type=int)], six rows
    a page. *)
Definition home_page (req : Request) (db : Db float) : Pagination float :=
  let page :=
    match v <- MultiDict.get "page" (args req);; py_int v with
    | Some n => n
    | None => 1
    end in
  paginate page 6 (home_query req db).

Definition home (req : Request) (db : Db float) : Reply float :=
  let products := home_page req db in
  reply (Render "home.html" (HomeCtx products (categories db))) [] req db.

(** *** login and register *)

(** [User.query.filter_by(email=email).first()] *)
Definition find_user (db : Db float) (email : string) : option User.t :=
  find (fun u => String.eqb (User.email u) email) (users db).

(** [db.session.add(user)] *)
Definition add_user (u : User.t) (db : Db float) : Db float :=
  mkDb (users db ++ [u]) (categories db) (products db) (orders db)
       (order_items db) (cart_items db).

Definition login (req : Request) (db : Db float) : Reply float :=
  match method req with
  | POST =>
      match
        email <- MultiDict.get "email" (form req);;
        password <- MultiDict.get "password" (form req);;
        Some (email, password)
      with
      | None => reply (Abort 400) [] req db
      | Some (email, password) =>
          match find_user db email with
          | Some user =>
              if check_password_hash (User.password user) password
              then mkReply (Redirect "home") [] db (Some (User.id user))
              else reply (Render "login.html" NoCtx) ["Invalid credentials"]
                         req db
          | None =>
              reply (Render "login.html" NoCtx) ["Invalid credentials"] req db
          end
      end
  | GET => reply (Render "login.html" NoCtx) [] req db
  end.

Definition register (req : Request) (db : Db float) : Reply float :=
  match method req with
  | POST =>
      match
        email <- MultiDict.get "email" (form req);;
        pw <- MultiDict.get "password" (form req);;
        let password := generate_password_hash (salt req) pw in
        name <- MultiDict.get "name" (form req);;
        address <- MultiDict.get "address" (form req);;
        Some (email, password, name, address)
      with
      | None => reply (Abort 400) [] req db
      | Some (email, password, name, address) =>
          match find_user db email with
          | Some _ =>
              reply (Render "register.html" NoCtx) ["Email already registered"]
                    req db
          | None =>
              let user :=
                User.mk (next_id (map User.id (users db)))
                        email password name address in
              mkReply (Redirect "login") ["Registered! Please login."]
                      (add_user user db) (session req)
          end
      end
  | GET => reply (Render "register.html" NoCtx) [] req db
  end.

(** *** product, orders, profile, logout *)

Definition product (id : Z) (req : Request) (db : Db float) : Reply float :=
  match get_product db id with
  | Some prod => reply (Render "product.html" (ProductCtx prod)) [] req db
  | None => reply (Abort 404) [] req db
  end.

Definition date_desc (a b : Order.t float) : bool :=
  Order.date b <=? Order.date a.

Definition orders_view (current_user : User.t) (req : Request) (db : Db float)
  : Reply float :=
  let orders :=
    order_by date_desc
             (filter (fun o => Order.user_id o =? User.id current_user)
                     (orders db)) in
  reply (Render "orders.html" (OrdersCtx orders)) [] req db.

(** [current_user.name = name; current_user.address = address] *)
Definition set_profile (u : User.t) (name address : string) (db : Db float)
  : Db float :=
  mkDb (map (fun x => if User.id x =? User.id u
                      then User.mk (User.id x) (User.email x)
                                   (User.password x) name address
                      else x)
            (users db))
       (categories db) (products db) (orders db) (order_items db)
       (cart_items db).

Definition profile (current_user : User.t) (req : Request) (db : Db float)
  : Reply float :=
  match method req with
  | POST =>
      let name :=
        match MultiDict.get "name" (form req) with
        | Some v => v
        | None => User.name current_user
        end in
      let address :=
        match MultiDict.get "address" (form req) with
        | Some v => v
        | None => User.address current_user
        end in
      mkReply (Redirect "profile") ["Profile updated"]
              (set_profile current_user name address db) (session req)
  | GET => reply (Render "profile.html" NoCtx) [] req db
  end.

Definition logout (current_user : User.t) (req : Request) (db : Db float)
  : Reply float :=
  mkReply (Redirect "home") [] db None.

(** *** The routes *)

Inductive Route :=
| Home
| ProductPage (id : Z)
| Cart
| AddToCart (product_id : Z)
| Checkout
| Orders
| Login
| Register
| Profile
| Logout.

(** A route without [methods=['GET', 'POST']] takes GET only. *)
Definition get_only (view : Request -> Db float -> Reply float)
           (req : Request) (db : Db float) : Reply float :=
  match method req with
  | GET => view req db
  | POST => reply (Abort 405) [] req db
  end.

Definition dispatch (route : Route) : Request -> Db float -> Reply float :=
  match route with
  | Home => get_only home
  | ProductPage id => get_only (product id)
  | Cart => login_required cart
  | AddToCart product_id => get_only (login_required (add_to_cart product_id))
  | Checkout => login_required checkout
  | Orders => get_only (login_required orders_view)
  | Login => login
  | Register => register
  | Profile => login_required profile
  | Logout => get_only (login_required logout)
  end.

End Handlers.

(** ** The demo data

    The block under [if __name__ == '__main__']: rows are added to a table
    only when it is empty, and the demo user only when no user has its
    email. The prices are float literals, read by [float_literal]. *)

Section Seeding.

Context {float : Type} `{Platform float}.
Variable float_literal : string -> float.

Definition dquote : string := String (ascii_of_nat 34) EmptyString.

(** [db.session.add(Category(name=name))] *)
Definition add_category (name : string) (db : Db float) : Db float :=
  mkDb (users db)
       (categories db
          ++ [Category.mk (next_id (map Category.id (categories db))) name])
       (products db) (orders db) (order_items db) (cart_items db).

(** [db.session.add(Product(...))] *)
Definition add_product
           (row : string * string * string * string * Z * Z) (db : Db float)
  : Db float :=
  let '(name, description, price, image, category_id, stock) := row in
  mkDb (users db) (categories db)
       (products db
          ++ [Product.mk (next_id (map (@Product.id float) (products db)))
                         name description (float_literal price) image
                         (Some category_id) stock])
       (orders db) (order_items db) (cart_items db).

Definition cats : list string := ["Electronics"; "Fashion"; "Home"; "Sports"].

Definition prods : list (string * string * string * string * Z * Z) :=
  [("iPhone 15", "Latest Apple smartphone with A17 chip", "999.99",
    "https://via.placeholder.com/300x200?text=iPhone+15", 1, 10);
   ("Samsung 65" ++ dquote ++ " 4K TV", "Smart TV with QLED technology",
    "799.99", "https://via.placeholder.com/300x200?text=Samsung+TV", 1, 5);
   ("Nike Air Max 90", "Classic running shoes", "129.99",
    "https://via.placeholder.com/300x200?text=Nike+Shoes", 4, 20);
   ("Adidas Originals Jacket", "Cozy winter jacket", "89.99",
    "https://via.placeholder.com/300x200?text=Adidas+Jacket", 2, 15);
   ("Keurig Coffee Maker", "Single-serve coffee machine", "149.99",
    "https://via.placeholder.com/300x200?text=Coffee+Maker", 3, 8);
   ("MacBook Pro 16" ++ dquote, "M3 Pro chip, 18GB RAM", "2499.99",
    "https://via.placeholder.com/300x200?text=MacBook", 1, 3);
   ("Levi's 501 Jeans", "Original straight fit", "69.99",
    "https://via.placeholder.com/300x200?text=Levi%27s+Jeans", 2, 25);
   ("Lululemon Yoga Mat", "Eco-friendly non-slip mat", "29.99",
    "https://via.placeholder.com/300x200?text=Yoga+Mat", 4, 30)].

Definition seed_categories (db : Db float) : Db float :=
  match categories db with
  | [] => fold_left (fun db name => add_category name db) cats db
  | _ => db
  end.

Definition seed_products (db : Db float) : Db float :=
  match products db with
  | [] => fold_left (fun db row => add_product row db) prods db
  | _ => db
  end.

Definition seed_user (salt : string) (db : Db float) : Db float :=
  match find_user db "demo@example.com" with
  | Some _ => db
  | None =>
      add_user (User.mk (next_id (map User.id (users db)))
                        "demo@example.com"
                        (generate_password_hash salt "123456")
                        "Demo User" "123 Demo St, City")
               db
  end.

Definition seed (salt : string) (db : Db float) : Db float :=
  seed_user salt (seed_products (seed_categories db)).

End Seeding.

(** The store before anything is written. *)
Definition empty_db {float : Type} : Db float := mkDb [] [] [] [] [] [].
(** ** Vocabulary of the properties *)

Section Vocabulary.

Context {float : Type} `{Platform float}.

(** A cart whose lines all have a product. *)
Definition resolved (db : Db float) (cart : list CartItem.t) : Prop :=
  forall item, In item cart -> product_of db item <> None.

(** A line that asks for more than the stock of its product. *)
Definition short (db : Db float) (item : CartItem.t) (p : Product.t float) : Prop :=
  product_of db item = Some p /\ Product.stock p < CartItem.quantity item.

(** [price * quantity] of an order item. *)
Definition subtotal (oi : OrderItem.t float) : float :=
  float_mul (OrderItem.price oi) (OrderItem.quantity oi).

(** The quantity of a product in a cart: the sum over its lines. *)
Definition purchased (cart : list CartItem.t) (product_id : Z) : Z :=
  fold_right Z.add 0
    (map CartItem.quantity
         (filter (fun it => CartItem.product_id it =? product_id) cart)).

(** The ids of the products of a cart. *)
Definition cart_products (cart : list CartItem.t) : list Z :=
  map CartItem.product_id cart.

(** The quantity of every cart line is in [1,100]. *)
Definition cart_ok (db : Db float) : Prop :=
  Forall (fun c => 1 <= CartItem.quantity c <= 100) (cart_items db).

(** The checkout went through: the reply is the redirect to the orders. *)
Definition placed (r : Reply float) : Prop :=
  response r = Redirect "orders".

(** An edit of the product table from outside the handlers, such as a
    change of price: every row is replaced by its image. *)
Definition update_products (f : Product.t float -> Product.t float)
           (db : Db float) : Db float :=
  mkDb (users db) (categories db) (map f (products db)) (orders db)
       (order_items db) (cart_items db).

(** The lines of the other users. *)
Definition other_carts (db : Db float) (u : User.t) : list CartItem.t :=
  filter (fun it => negb (CartItem.user_id it =? User.id u)) (cart_items db).

(** The cart lines the loop deletes: those with the id of a line of the
    cart. *)
Definition deleted (cart : list CartItem.t) (c : CartItem.t) : bool :=
  existsb (fun it => CartItem.id c =? CartItem.id it) cart.

(** An order item records a cart line at the prices of a store. *)
Definition records (db : Db float) (oid : Z)
           (item : CartItem.t) (oi : OrderItem.t float) : Prop :=
  OrderItem.order_id oi = oid
  /\ OrderItem.product_id oi = CartItem.product_id item
  /\ OrderItem.quantity oi = CartItem.quantity item
  /\ exists p, product_of db item = Some p
               /\ OrderItem.price oi = Product.price p.

(** A product row after the loop is the row before it, up to its stock;
    rows of products that are not in the cart are the same. *)
Definition restocked (cart : list CartItem.t) (p p' : Product.t float) : Prop :=
  p' = Product.with_stock (Product.stock p') p
  /\ (~ In (Product.id p) (cart_products cart) -> p' = p).

(** What the store can be later on: after any requests to the application
    and any edits of the product table. *)
Inductive later (db : Db float) : Db float -> Prop :=
| later_now : later db db
| later_request (db' : Db float) (route : Route) (req : Request) :
    later db db' -> later db (db_after (dispatch route req db'))
| later_edit (db' : Db float) (f : Product.t float -> Product.t float) :
    later db db' -> later db (update_products f db').

(** The orders and order items of [db] are those [db'] starts with. *)
Definition ledger_kept (db db' : Db float) : Prop :=
  (exists os, orders db' = (orders db ++ os)%list)
  /\ (exists ois, order_items db' = (order_items db ++ ois)%list).

(** Prices that do not increase along a list of products. *)
Definition price_not_above (a b : Product.t float) : Prop :=
  float_leb (Product.price b) (Product.price a) = true.

(** A product that the join with the categories keeps. *)
Definition categorised (db : Db float) (p : Product.t float) : Prop :=
  exists cid c,
    Product.category_id p = Some cid
    /\ In c (categories db) /\ Category.id c = cid.

(** The tables but the cart are the same. *)
Definition same_but_cart (db db' : Db float) : Prop :=
  users db' = users db /\ categories db' = categories db
  /\ products db' = products db /\ orders db' = orders db
  /\ order_items db' = order_items db.

(** What a cart line is, its quantity apart. *)
Definition line_key (c : CartItem.t) : Z * Z * Z :=
  (CartItem.id c, CartItem.user_id c, CartItem.product_id c).

(** The routes behind [@login_required]. *)
Definition protected (route : Route) : bool :=
  match route with
  | Cart | AddToCart _ | Checkout | Orders | Profile | Logout => true
  | Home | ProductPage _ | Login | Register => false
  end.

(** A request without a user: no user id in the session, or the id of no
    user of the store. *)
Definition anonymous (req : Request) (db : Db float) : Prop :=
  forall uid, session req = Some uid -> load_user db uid = None.

(** The emails of the accounts are distinct. *)
Definition emails_unique (db : Db float) : Prop :=
  NoDup (map User.email (users db)).

(** The ids of the rows of every table are distinct. *)
Definition keys_ok (db : Db float) : Prop :=
  NoDup (map User.id (users db))
  /\ NoDup (map Category.id (categories db))
  /\ NoDup (map (@Product.id float) (products db))
  /\ NoDup (map (@Order.id float) (orders db))
  /\ NoDup (map (@OrderItem.id float) (order_items db))
  /\ NoDup (map CartItem.id (cart_items db)).

(** Every foreign key of a cart line, an order and an order item is the id
    of a row of the store. *)
Definition refs_ok (db : Db float) : Prop :=
  (forall c, In c (cart_items db) ->
     In (CartItem.user_id c) (map User.id (users db))
     /\ In (CartItem.product_id c) (map (@Product.id float) (products db)))
  /\ (forall o, In o (orders db) ->
        In (Order.user_id o) (map User.id (users db)))
  /\ (forall oi, In oi (order_items db) ->
        In (OrderItem.order_id oi) (map (@Order.id float) (orders db))
        /\ In (OrderItem.product_id oi)
              (map (@Product.id float) (products db))).

(** Every user has at most one cart line for a product. *)
Definition one_line (db : Db float) : Prop :=
  forall uid,
    NoDup (map CartItem.product_id
               (filter (fun c => CartItem.user_id c =? uid) (cart_items db))).

(** No stock is negative. *)
Definition stock_ok (db : Db float) : Prop :=
  Forall (fun p => 0 <= Product.stock p) (products db).

(** A product row whose stock has not gone up, nor below 0, and whose
    other fields are the same. *)
Definition sold_from (p p' : Product.t float) : Prop :=
  p' = Product.with_stock (Product.stock p') p
  /\ 0 <= Product.stock p' <= Product.stock p.

(** The filters of [home] on a product: the search, when there is one,
    and the category, when there is one that is a number. *)
Definition shown (req : Request) (p : Product.t float) : bool :=
  match MultiDict.get "search" (args req) with
  | Some (String a s) => sql_contains (Product.name p) (String a s)
  | _ => true
  end
  && match MultiDict.get "category" (args req) with
     | Some (String a c) =>
         match py_int (String a c) with
         | Some cid =>
             match Product.category_id p with
             | Some k => k =? cid
             | None => false
             end
         | None => true
         end
     | _ => true
     end.

(** A product whose category is one of the store. *)
Definition has_category (db : Db float) (p : Product.t float) : bool :=
  match Product.category_id p with
  | Some cid => existsb (fun c => Category.id c =? cid) (categories db)
  | None => false
  end.

(** The request for another page of the same listing. *)
Definition at_page (k : string) (req : Request) : Request :=
  mkRequest (method req) (("page", k) :: args req) (form req)
            (session req) (now req) (salt req).

(** The invariants of the store, together. *)
Definition well_formed (db : Db float) : Prop :=
  keys_ok db /\ refs_ok db /\ one_line db /\ cart_ok db /\ stock_ok db
  /\ emails_unique db.

(** The stores the application reaches by serving requests. *)
Inductive served (db : Db float) : Db float -> Prop :=
| served_now : served db db
| served_request (db' : Db float) (route : Route) (req : Request) :
    served db db' -> served db (db_after (dispatch route req db')).

(** [add_to_cart] of a product, a number of times in a row. *)
Fixpoint add_times (n : nat) (pid : Z) (u : User.t) (req : Request)
         (db : Db float) : Db float :=
  match n with
  | O => db
  | S n => db_after (add_to_cart pid u req (add_times n pid u req db))
  end.

End Vocabulary.

(** ** An instance of the platform, to run the handlers

    Prices in cents with exact arithmetic, the ASCII fragment of [int], a
    case-sensitive substring match and a toy salted hash. *)

Module Cents.

Fixpoint contains (s sub : string) : bool :=
  String.prefix sub s ||
  match s with
  | EmptyString => false
  | String _ rest => contains rest sub
  end.

Definition hash (salt pw : string) : string := salt ++ "$" ++ pw.

Definition check (h pw : string) : bool :=
  match Py.split "$" h with
  | [_; p] => String.eqb p pw
  | _ => false
  end.

#[export] Instance platform : Platform Z := {
  py_int := Py.int_ascii;
  float_mul := Z.mul;
  py_sum := fun l => fold_left Z.add l 0;
  float_leb := Z.leb;
  sql_contains := contains;
  generate_password_hash := hash;
  check_password_hash := check }.

(** The demo data of the application, and a shopper with two lines. *)
Definition demo : Db Z :=
  mkDb [User.mk 1 "demo@example.com" (hash "s" "123456") "Demo User"
                "123 Demo St, City";
        User.mk 2 "ann@example.com" (hash "t" "secret") "Ann" "1 Main St"]
       [Category.mk 1 "Electronics"; Category.mk 2 "Fashion";
        Category.mk 3 "Home"; Category.mk 4 "Sports"]
       [Product.mk 1 "iPhone 15" "Latest Apple smartphone" 99999 "iphone"
                   (Some 1) 10;
        Product.mk 2 "Samsung TV" "Smart TV" 79999 "tv" (Some 1) 5;
        Product.mk 3 "Nike Air Max 90" "Classic running shoes" 12999 "nike"
                   (Some 4) 20;
        Product.mk 4 "Adidas Originals Jacket" "Cozy winter jacket" 8999
                   "adidas" (Some 2) 15;
        Product.mk 5 "Keurig Coffee Maker" "Coffee machine" 14999 "keurig"
                   (Some 3) 8;
        Product.mk 6 "MacBook Pro 16" "M3 Pro chip" 249999 "macbook"
                   (Some 1) 3;
        Product.mk 7 "Levi's 501 Jeans" "Original straight fit" 6999 "levis"
                   (Some 2) 25;
        Product.mk 8 "Lululemon Yoga Mat" "Non-slip mat" 2999 "mat"
                   (Some 4) 30;
        Product.mk 9 "Gift card" "No category" 5000 "gift" None 100]
       [Order.mk 1 2 12999 0]
       [OrderItem.mk 1 1 3 1 12999]
       [CartItem.mk 1 1 3 2; CartItem.mk 2 2 6 1; CartItem.mk 3 1 4 1].

Definition shopper : User.t :=
  User.mk 1 "demo@example.com" (hash "s" "123456") "Demo User"
          "123 Demo St, City".

Definition post (fields : MultiDict.t) : Request :=
  mkRequest POST [] fields (Some 1) 42 "pepper".

Definition get (query : MultiDict.t) : Request :=
  mkRequest GET query [] (Some 1) 42 "pepper".

(** The same store with a cart line that asks for more than the stock. *)
Definition greedy : Db Z :=
  mkDb (users demo) (categories demo) (products demo) (orders demo)
       (order_items demo)
       [CartItem.mk 1 1 3 2; CartItem.mk 2 2 6 1; CartItem.mk 3 1 6 15].





(** The registration of a new account. *)
Definition new_account : Request :=
  post [("email", "bob@example.com"); ("password", "hunter2");
        ("name", "Bob"); ("address", "2 Side St")].

(** A float literal with two decimals, in cents. *)
Fixpoint without_dot (s : string) : string :=
  match s with
  | EmptyString => EmptyString
  | String c rest =>
      if Ascii.eqb c "."%char then without_dot rest
      else String c (without_dot rest)
  end.

Definition literal (s : string) : Z :=
  match Py.int_ascii (without_dot s) with
  | Some n => n
  | None => 0
  end.

(** The demo data seeded in an empty store. *)
Definition seeded : Db Z := seed literal "pepper" empty_db.

End Cents.

(** ** Properties *)

Unset Implicit Arguments.

(** *** Facts on lists and ids *)

Lemma fold_max_upper (ids : list Z) (x : Z) :
  In x ids -> x <= fold_right Z.max 0 ids.
Proof.
  induction ids as [|y ids IH]; simpl; [tauto|].
  intros [->|Hin]; [lia|]. specialize (IH Hin). lia.
Qed.

Lemma next_id_fresh (ids : list Z) : ~ In (next_id ids) ids.
Proof.
  intros Hin. apply fold_max_upper in Hin. unfold next_id in Hin. lia.
Qed.

Lemma filter_none {A} (f : A -> bool) (l : list A) :
  (forall x, In x l -> f x = false) -> filter f l = [].
Proof.
  induction l as [|a l IH]; simpl; intros Hf; [reflexivity|].
  rewrite (Hf a (or_introl eq_refl)). apply IH. intros x Hx. apply Hf. now right.
Qed.

Lemma filter_all {A} (f : A -> bool) (l : list A) :
  (forall x, In x l -> f x = true) -> filter f l = l.
Proof.
  induction l as [|a l IH]; simpl; intros Hf; [reflexivity|].
  rewrite (Hf a (or_introl eq_refl)). f_equal. apply IH.
  intros x Hx. apply Hf. now right.
Qed.

Lemma filter_comm {A} (f g : A -> bool) (l : list A) :
  filter f (filter g l) = filter g (filter f l).
Proof.
  induction l as [|a l IH]; simpl; [reflexivity|].
  destruct (f a) eqn:Ef, (g a) eqn:Eg; simpl; rewrite ?Ef, ?Eg, IH; reflexivity.
Qed.

Lemma NoDup_map_eq {A B} (f : A -> B) (l : list A) (a b : A) :
  NoDup (map f l) -> In a l -> In b l -> f a = f b -> a = b.
Proof.
  induction l as [|x l IH]; simpl; [tauto|].
  intros Hnd Ha Hb Hf. inversion Hnd as [|? ? Hx Hl]; subst.
  destruct Ha as [->|Ha], Hb as [->|Hb]; auto.
  - exfalso. apply Hx. rewrite Hf. now apply in_map.
  - exfalso. apply Hx. rewrite <- Hf. now apply in_map.
Qed.

Section Properties.

Context {float : Type} `{Platform float}.

(** *** The stock check *)

Lemma check_stock_short (db : Db float) (cart : list CartItem.t) :
  resolved db cart ->
  (exists item p, In item cart /\ short db item p) ->
  exists item p, In item cart /\ short db item p
                 /\ check_stock db cart = NotEnough p.
Proof.
  induction cart as [|it cart IH]; intros Hres (item & p & Hin & Hshort).
  - destruct Hin.
  - simpl. destruct (product_of db it) as [q|] eqn:Hq.
    + destruct (Product.stock q <? CartItem.quantity it) eqn:Hlt.
      * exists it, q. split; [now left|].
        split; [split; [assumption | now apply Z.ltb_lt] | reflexivity].
      * destruct Hin as [->|Hin].
        { destruct Hshort as [Hp Hs]. rewrite Hq in Hp. injection Hp as ->.
          apply Z.ltb_ge in Hlt. lia. }
        destruct IH as (item' & p' & Hin' & Hshort' & Hck).
        { intros x Hx. apply Hres. now right. }
        { now exists item, p. }
        exists item', p'. split; [now right | now split].
    + exfalso. apply (Hres it); [now left | assumption].
Qed.

Lemma check_stock_available (db : Db float) (cart : list CartItem.t) :
  check_stock db cart = Available ->
  forall item, In item cart ->
  exists p, product_of db item = Some p
            /\ CartItem.quantity item <= Product.stock p.
Proof.
  induction cart as [|it cart IH]; simpl; intros Hck item Hin; [tauto|].
  destruct (product_of db it) as [q|] eqn:Hq; [|discriminate].
  destruct (Product.stock q <? CartItem.quantity it) eqn:Hlt; [discriminate|].
  destruct Hin as [<-|Hin]; [|now apply IH].
  exists q. split; [assumption|]. now apply Z.ltb_ge.
Qed.

Lemma check_stock_refuses (db : Db float) (cart : list CartItem.t) :
  (exists item p, In item cart /\ short db item p) ->
  check_stock db cart <> Available.
Proof.
  intros (item & p & Hin & Hp & Hlt) Hck.
  destruct (check_stock_available db cart Hck item Hin) as (q & Hq & Hle).
  rewrite Hp in Hq. injection Hq as <-. lia.
Qed.

(** C1. A POST to checkout by a user one of whose cart lines asks for more
    than the stock of its product places no order and leaves the store as
    it was: no order, no order item, no change of stock, no cart line
    deleted. When every line of the cart has its product, the reply is the
    redirect to the cart with the flash that names the product of such a
    line and its stock. *)
Theorem checkout_short_stock_aborts
        (u : User.t) (req : Request) (db : Db float) :
  method req = POST ->
  (exists item p, In item (user_cart db u) /\ short db item p) ->
  db_after (checkout u req db) = db
  /\ ~ placed (checkout u req db)
  /\ (resolved db (user_cart db u) ->
      exists item p,
        In item (user_cart db u) /\ short db item p
        /\ checkout u req db
           = mkReply (Redirect "cart")
                     ["Not enough stock for " ++ Product.name p
                        ++ ". Available: " ++ Py.str (Product.stock p)]
                     db (session req)).
Proof.
  intros Hpost Hex.
  pose proof (check_stock_refuses _ _ Hex) as Hno.
  assert (Hne : user_cart db u <> [])
    by (destruct Hex as (item & _ & Hin & _); intros E; now rewrite E in Hin).
  unfold placed, checkout. rewrite Hpost.
  destruct (user_cart db u) as [|it cart] eqn:Hcart; [congruence|].
  split; [|split].
  - destruct (check_stock db (it :: cart)); [congruence | reflexivity..].
  - destruct (check_stock db (it :: cart)); [congruence | discriminate..].
  - intros Hres.
    destruct (check_stock_short _ _ Hres Hex) as (item & p & Hin & Hshort & ->).
    now exists item, p.
Qed.

(** *** The second loop of checkout *)

Lemma get_product_id (db : Db float) (id : Z) (p : Product.t float) :
  get_product db id = Some p -> Product.id p = id.
Proof.
  unfold get_product. intros Hf. apply find_some in Hf.
  now apply Z.eqb_eq.
Qed.

Lemma get_product_set_stock (db : Db float) (id v id' : Z) :
  get_product (set_stock id v db) id'
  = if id' =? id then option_map (Product.with_stock v) (get_product db id')
    else get_product db id'.
Proof.
  unfold get_product, set_stock; simpl.
  induction (products db) as [|p ps IH]; simpl.
  - now destruct (id' =? id).
  - destruct (Product.id p =? id) eqn:Epid; simpl.
    + destruct (Product.id p =? id') eqn:Ep'.
      * apply Z.eqb_eq in Epid, Ep'. subst id id'.
        now rewrite Z.eqb_refl.
      * exact IH.
    + destruct (Product.id p =? id') eqn:Ep'; [|exact IH].
      apply Z.eqb_eq in Ep'. subst id'. now rewrite Epid.
Qed.

(** One step of the loop, spelled out. *)
Lemma place_line_inv (oid : Z) (st st' : Db float) (item : CartItem.t) :
  place_line oid st item = Some st' ->
  exists p,
    product_of st item = Some p
    /\ Product.id p = CartItem.product_id item
    /\ st' = delete_cart_item item
               (set_stock (Product.id p)
                  (Z.max 0 (Product.stock p - CartItem.quantity item))
                  (add_order_item
                     (OrderItem.mk
                        (next_id (map (@OrderItem.id float) (order_items st)))
                        oid (CartItem.product_id item)
                        (CartItem.quantity item) (Product.price p))
                     st)).
Proof.
  unfold place_line. intros Hstep.
  destruct (product_of st item) as [p|] eqn:Hp; simpl in Hstep; [|discriminate].
  injection Hstep as <-. exists p. split; [reflexivity|]. split; [|reflexivity].
  now apply get_product_id with (db := st).
Qed.

(** A step reads the product of its line in the pending state and changes
    nothing of it but the stock. *)
Lemma place_line_product (oid : Z) (st st' : Db float) (item : CartItem.t) (id : Z) :
  place_line oid st item = Some st' ->
  get_product st' id
  = if id =? CartItem.product_id item
    then option_map
           (fun p => Product.with_stock
                       (Z.max 0 (Product.stock p - CartItem.quantity item)) p)
           (get_product st id)
    else get_product st id.
Proof.
  intros Hstep. apply place_line_inv in Hstep as (p & Hp & Hid & ->).
  change (get_product (delete_cart_item item ?s) id) with (get_product s id).
  rewrite get_product_set_stock.
  change (get_product (add_order_item ?o st) id) with (get_product st id).
  rewrite Hid. destruct (id =? CartItem.product_id item) eqn:E; [|reflexivity].
  apply Z.eqb_eq in E. subst id. unfold product_of in Hp. now rewrite Hp.
Qed.

Ltac loop_step Hrun Hstep st1 :=
  simpl in Hrun;
  match type of Hrun with
  | bind (place_line ?oid ?st ?it) _ = Some _ =>
      destruct (place_line oid st it) as [st1|] eqn:Hstep;
      simpl in Hrun; [|discriminate]
  end.

(** The loop keeps the price of every product. *)
Lemma place_lines_price (oid : Z) (cart : list CartItem.t) :
  forall (st st' : Db float) (id : Z),
    foldM (place_line oid) cart st = Some st' ->
    option_map (@Product.price float) (get_product st' id)
    = option_map (@Product.price float) (get_product st id).
Proof.
  induction cart as [|it cart IH]; intros st st' id Hrun.
  - simpl in Hrun. now injection Hrun as <-.
  - loop_step Hrun Hstep st1. rewrite (IH _ _ id Hrun).
    rewrite (place_line_product _ _ _ _ id Hstep).
    destruct (id =? CartItem.product_id it); [|reflexivity].
    now destruct (get_product st id).
Qed.

(** A product none of whose lines is in the cart is left as it is. *)
Lemma place_lines_other_product (oid : Z) (cart : list CartItem.t) :
  forall (st st' : Db float) (id : Z),
    foldM (place_line oid) cart st = Some st' ->
    ~ In id (cart_products cart) ->
    get_product st' id = get_product st id.
Proof.
  induction cart as [|it cart IH]; intros st st' id Hrun Hnin.
  - simpl in Hrun. now injection Hrun as <-.
  - loop_step Hrun Hstep st1. simpl in Hnin.
    rewrite (IH _ _ id Hrun) by tauto.
    rewrite (place_line_product _ _ _ _ id Hstep).
    destruct (id =? CartItem.product_id it) eqn:E; [|reflexivity].
    apply Z.eqb_eq in E. exfalso. apply Hnin. now left.
Qed.

(** The loop runs to its end when every line has a product. *)
Lemma place_lines_total (oid : Z) (cart : list CartItem.t) :
  forall st : Db float,
    resolved st cart -> exists st', foldM (place_line oid) cart st = Some st'.
Proof.
  induction cart as [|it cart IH]; intros st Hres.
  - now exists st.
  - simpl. unfold place_line at 1.
    destruct (product_of st it) as [p|] eqn:Hp.
    + simpl. apply IH. intros x Hx Hnone.
      apply (Hres x); [now right|].
      unfold product_of in *.
      match type of Hnone with
      | get_product ?s _ = None =>
          assert (Hs : place_line oid st it = Some s)
            by (unfold place_line, product_of; rewrite Hp; reflexivity)
      end.
      rewrite (place_line_product _ _ _ _ _ Hs) in Hnone.
      destruct (_ =? _); [|assumption].
      now destruct (get_product st (CartItem.product_id x)).
    + exfalso. apply (Hres it); [now left | assumption].
Qed.

Lemma filter_filter {A} (f g : A -> bool) (l : list A) :
  filter f (filter g l) = filter (fun x => g x && f x) l.
Proof.
  induction l as [|a l IH]; simpl; [reflexivity|].
  destruct (g a); simpl; [|exact IH].
  destruct (f a); now rewrite IH.
Qed.

Lemma Forall2_map_left {A B C} (R : B -> C -> Prop) (g : A -> B) (l : list A) :
  forall l', Forall2 R (map g l) l' -> Forall2 (fun a c => R (g a) c) l l'.
Proof.
  induction l as [|a l IH]; simpl; intros l' HF; inversion HF; subst;
    constructor; auto.
Qed.

Lemma Forall2_In_right {A B} (R : A -> B -> Prop) (l : list A) (l' : list B) :
  Forall2 R l l' -> forall b, In b l' -> exists a, In a l /\ R a b.
Proof.
  induction 1 as [|a b l l' Hab _ IH]; simpl; intros c Hc; [tauto|].
  destruct Hc as [<-|Hc]; [exists a; auto|].
  destruct (IH c Hc) as (a' & Ha' & HR). exists a'. auto.
Qed.

(** The loop writes no user, no category and no order. *)
Lemma place_lines_frame (oid : Z) (cart : list CartItem.t) :
  forall st st' : Db float,
    foldM (place_line oid) cart st = Some st' ->
    users st' = users st /\ categories st' = categories st
    /\ orders st' = orders st.
Proof.
  induction cart as [|it cart IH]; intros st st' Hrun.
  - simpl in Hrun. now injection Hrun as <-.
  - loop_step Hrun Hstep st1.
    destruct (IH _ _ Hrun) as (Hu & Hc & Ho). rewrite Hu, Hc, Ho.
    apply place_line_inv in Hstep as (p & _ & _ & ->). now simpl.
Qed.

Lemma place_lines_cart (oid : Z) (cart : list CartItem.t) :
  forall st st' : Db float,
    foldM (place_line oid) cart st = Some st' ->
    cart_items st' = filter (fun c => negb (deleted cart c)) (cart_items st).
Proof.
  induction cart as [|it cart IH]; intros st st' Hrun.
  - simpl in Hrun. injection Hrun as <-. simpl.
    symmetry. now apply filter_all.
  - loop_step Hrun Hstep st1. rewrite (IH _ _ Hrun).
    apply place_line_inv in Hstep as (p & _ & _ & ->). simpl.
    rewrite filter_filter. apply filter_ext. intros c.
    now rewrite negb_orb.
Qed.

Lemma place_lines_items (oid : Z) (cart : list CartItem.t) :
  forall st st' : Db float,
    foldM (place_line oid) cart st = Some st' ->
    exists new,
      order_items st' = (order_items st ++ new)%list
      /\ Forall2 (records st oid) cart new.
Proof.
  induction cart as [|it cart IH]; intros st st' Hrun.
  - simpl in Hrun. injection Hrun as <-. exists []. split; [|constructor].
    now rewrite app_nil_r.
  - loop_step Hrun Hstep st1.
    destruct (IH _ _ Hrun) as (new & Hnew & Hrec).
    pose proof (fun id => place_line_product oid st st1 it id Hstep) as Hprod.
    apply place_line_inv in Hstep as (p & Hp & Hid & ->).
    eexists (_ :: new). split.
    + rewrite Hnew. simpl. rewrite <- app_assoc. reflexivity.
    + constructor.
      * unfold records; simpl. repeat split. now exists p.
      * eapply Forall2_impl; [|exact Hrec].
        intros item oi (Ho & Hpi & Hq & q & Hq1 & Hq2).
        unfold records. repeat (split; [assumption|]).
        unfold product_of in *. rewrite Hprod in Hq1.
        destruct (_ =? _), (get_product st (CartItem.product_id item)) as [q0|];
          simpl in Hq1; try discriminate.
        -- injection Hq1 as <-. now exists q0.
        -- injection Hq1 as <-. now exists q0.
Qed.

Lemma restocked_refl (p : Product.t float) : restocked [] p p.
Proof. split; [now destruct p | reflexivity]. Qed.

Lemma place_lines_products (oid : Z) (cart : list CartItem.t) :
  forall st st' : Db float,
    foldM (place_line oid) cart st = Some st' ->
    Forall2 (restocked cart) (products st) (products st').
Proof.
  induction cart as [|it cart IH]; intros st st' Hrun.
  - simpl in Hrun. injection Hrun as <-.
    induction (products st); constructor; auto using restocked_refl.
  - loop_step Hrun Hstep st1. specialize (IH _ _ Hrun).
    apply place_line_inv in Hstep as (p & _ & Hid & ->). simpl in IH.
    apply Forall2_map_left in IH.
    eapply Forall2_impl; [|exact IH]. clear IH.
    intros a b [Hb Hsame]. rewrite Hid in *. split.
    + destruct (Product.id a =? CartItem.product_id it);
        rewrite Hb; now destruct a.
    + intros Hnin. simpl in Hnin.
      destruct (Product.id a =? CartItem.product_id it) eqn:E.
      * apply Z.eqb_eq in E. exfalso. apply Hnin. now left.
      * apply Hsame. tauto.
Qed.

(** *** checkout *)

(** The order a checkout creates. *)
Lemma checkout_placed_inv (u : User.t) (req : Request) (db : Db float) :
  placed (checkout u req db) ->
  exists total,
    let order := Order.mk (next_id (map (@Order.id float) (orders db)))
                          (User.id u) total (now req) in
    method req = POST
    /\ check_stock db (user_cart db u) = Available
    /\ cart_total db (user_cart db u) = Some total
    /\ foldM (place_line (Order.id order)) (user_cart db u) (add_order order db)
       = Some (db_after (checkout u req db)).
Proof.
  unfold placed, checkout. destruct (method req).
  - destruct (cart_total db (user_cart db u)); discriminate.
  - destruct (user_cart db u) as [|it cart] eqn:Hcart; [discriminate|].
    destruct (check_stock db (it :: cart)) eqn:Hck; try discriminate.
    destruct (cart_total db (it :: cart)) as [total|] eqn:Ht;
      [|discriminate].
    cbn [bind].
    match goal with
    | |- context [foldM ?f ?l ?s] => destruct (foldM f l s) as [db'|] eqn:Hrun
    end; [|discriminate].
    intros _. exists total. cbn [db_after]. now repeat split.
Qed.

Lemma mapM_total {A B} (f : A -> option B) (l : list A) :
  (forall a, In a l -> f a <> None) -> exists bs, mapM f l = Some bs.
Proof.
  induction l as [|a l IH]; intros Hf; [now exists []|].
  simpl. destruct (f a) as [b|] eqn:Hb.
  - destruct IH as [bs ->]; [intros x Hx; apply Hf; now right|].
    now exists (b :: bs).
  - exfalso. apply (Hf a); [now left | assumption].
Qed.

(** A POST to checkout with a cart that is not empty and passes the stock
    check places the order. *)
Lemma checkout_places (u : User.t) (req : Request) (db : Db float) :
  method req = POST ->
  user_cart db u <> [] ->
  check_stock db (user_cart db u) = Available ->
  placed (checkout u req db).
Proof.
  intros Hpost Hne Hck. unfold placed, checkout. rewrite Hpost.
  assert (Hres : resolved db (user_cart db u)).
  { intros it Hin. destruct (check_stock_available _ _ Hck it Hin) as (p & -> & _).
    discriminate. }
  destruct (user_cart db u) as [|it cart] eqn:Hcart; [congruence|].
  rewrite Hck.
  assert (Ht : exists total, cart_total db (it :: cart) = Some total).
  { unfold cart_total.
    destruct (mapM_total (line_total db) (it :: cart)) as [ts ->].
    - intros a Ha. unfold line_total.
      destruct (product_of db a) eqn:Hp; [discriminate|].
      now apply Hres in Ha.
    - now eexists. }
  destruct Ht as [total ->]. cbn [bind].
  match goal with
  | |- context [foldM ?f ?l ?s] =>
      destruct (place_lines_total (Order.id (Order.mk
                   (next_id (map (@Order.id float) (orders db)))
                   (User.id u) total (now req))) l s) as [db' Hrun]
  end.
  - exact Hres.
  - simpl in Hrun. simpl. rewrite Hrun. reflexivity.
Qed.

Lemma records_subtotal (db : Db float) (oid : Z) (cart : list CartItem.t) :
  forall new ts,
    Forall2 (records db oid) cart new ->
    mapM (line_total db) cart = Some ts ->
    map subtotal new = ts.
Proof.
  induction cart as [|it cart IH]; intros new ts Hrec Hts;
    inversion Hrec as [|? oi ? new' Hoi Hrest]; subst; simpl in Hts.
  - now injection Hts as <-.
  - destruct Hoi as (_ & _ & Hq & p & Hp & Hprice).
    unfold line_total at 1 in Hts. rewrite Hp in Hts. simpl in Hts.
    destruct (mapM (line_total db) cart) as [ts'|] eqn:Hts'; [|discriminate].
    simpl in Hts. injection Hts as <-. simpl.
    rewrite (IH new' ts' Hrest eq_refl).
    unfold subtotal. now rewrite Hq, Hprice.
Qed.

(** C2. After a checkout that went through, the cart of the user is empty.
    The checkout adds one order and one order item for every line of the
    cart, each at the price its product has in the store at checkout, and
    the total of the order is the sum of price times quantity over these
    items. They are the items of the order ([order.items]) when every
    order item of the store belongs to an order of the store. *)
Theorem checkout_empties_cart_and_totals
        (u : User.t) (req : Request) (db : Db float) :
  placed (checkout u req db) ->
  let db' := db_after (checkout u req db) in
  user_cart db' u = []
  /\ exists order new,
       orders db' = (orders db ++ [order])%list
       /\ order_items db' = (order_items db ++ new)%list
       /\ Order.user_id order = User.id u
       /\ Forall2 (records db (Order.id order)) (user_cart db u) new
       /\ Order.total order = py_sum (map subtotal new)
       /\ ((forall oi, In oi (order_items db) ->
                       In (OrderItem.order_id oi)
                          (map (@Order.id float) (orders db))) ->
           order_lines db' order = new
           /\ Order.total order
              = py_sum (map subtotal (order_lines db' order))).
Proof.
  intros Hplaced db'.
  destruct (checkout_placed_inv _ _ _ Hplaced) as (total & _ & Hck & Ht & Hrun).
  fold db' in Hrun. simpl in Hrun.
  set (oid := next_id (map (@Order.id float) (orders db))) in *.
  set (order := Order.mk oid (User.id u) total (now req)) in *.
  destruct (place_lines_frame _ _ _ _ Hrun) as (_ & _ & Horders).
  pose proof (place_lines_cart _ _ _ _ Hrun) as Hcart.
  destruct (place_lines_items _ _ _ _ Hrun) as (new & Hitems & Hrec).
  simpl in Horders, Hcart, Hitems. split.
  - unfold user_cart at 1. rewrite Hcart, filter_comm. fold (user_cart db u).
    apply filter_none. intros c Hc. apply negb_false_iff.
    unfold deleted. apply existsb_exists. exists c. split; [assumption|].
    apply Z.eqb_refl.
  - assert (Htotal : Order.total order = py_sum (map subtotal new)).
    { unfold cart_total in Ht.
      destruct (mapM (line_total db) (user_cart db u)) as [ts|] eqn:Hts;
        [|discriminate].
      simpl in Ht. injection Ht as <-. simpl.
      now rewrite (records_subtotal _ _ _ _ _ Hrec Hts). }
    exists order, new. repeat (split; [assumption || reflexivity|]).
    intros Hfk.
    assert (Hlines : order_lines db' order = new).
    { unfold order_lines. rewrite Hitems, filter_app.
      rewrite filter_none, filter_all; [reflexivity| |].
      - intros oi Hoi.
        destruct (Forall2_In_right _ _ _ Hrec oi Hoi) as (it & _ & Ho & _).
        simpl. rewrite Ho. apply Z.eqb_refl.
      - intros oi Hoi. simpl. apply Z.eqb_neq. intros Heq.
        apply (next_id_fresh (map (@Order.id float) (orders db))).
        fold oid. rewrite <- Heq. now apply Hfk. }
    now rewrite Hlines.
Qed.

(** *** Stock *)

Lemma purchased_nonneg (cart : list CartItem.t) (id : Z) :
  (forall it, In it cart -> 0 <= CartItem.quantity it) ->
  0 <= purchased cart id.
Proof.
  unfold purchased. induction cart as [|it cart IH]; simpl; intros Hq; [lia|].
  assert (0 <= CartItem.quantity it) by (apply Hq; now left).
  assert (IH' := IH (fun x Hx => Hq x (or_intror Hx))).
  destruct (CartItem.product_id it =? id); simpl; lia.
Qed.

Lemma purchased_absent (cart : list CartItem.t) (id : Z) :
  ~ In id (cart_products cart) -> purchased cart id = 0.
Proof.
  unfold purchased. induction cart as [|it cart IH]; simpl; intros Hnin;
    [reflexivity|].
  destruct (CartItem.product_id it =? id) eqn:E.
  - apply Z.eqb_eq in E. tauto.
  - apply IH. tauto.
Qed.

Lemma with_stock_twice (a b : Z) (p : Product.t float) :
  Product.with_stock a (Product.with_stock b p) = Product.with_stock a p.
Proof. reflexivity. Qed.

Lemma place_lines_stock (oid : Z) (cart : list CartItem.t) :
  forall (st st' : Db float) (id : Z) (p : Product.t float),
    (forall it, In it cart -> 0 <= CartItem.quantity it) ->
    foldM (place_line oid) cart st = Some st' ->
    In id (cart_products cart) ->
    get_product st id = Some p ->
    get_product st' id
    = Some (Product.with_stock
              (Z.max 0 (Product.stock p - purchased cart id)) p).
Proof.
  induction cart as [|it cart IH]; intros st st' id p Hq Hrun Hin Hp;
    [destruct Hin|].
  loop_step Hrun Hstep st1.
  assert (Hq' : forall x, In x cart -> 0 <= CartItem.quantity x)
    by (intros x Hx; apply Hq; now right).
  pose proof (place_line_product oid st st1 it id Hstep) as Hp1.
  rewrite Hp in Hp1. simpl in Hp1.
  pose proof (purchased_nonneg cart id Hq') as Hr.
  unfold purchased in *. simpl.
  destruct (in_dec Z.eq_dec id (cart_products cart)) as [Hrest|Hrest].
  - destruct (id =? CartItem.product_id it) eqn:E.
    + rewrite (IH _ _ _ _ Hq' Hrun Hrest Hp1).
      apply Z.eqb_eq in E. rewrite <- E, Z.eqb_refl. simpl.
      rewrite with_stock_twice. do 2 f_equal. lia.
    + rewrite (IH _ _ _ _ Hq' Hrun Hrest Hp1).
      rewrite Z.eqb_sym, E. reflexivity.
  - destruct Hin as [Hin|Hin]; [|contradiction].
    rewrite (place_lines_other_product _ _ _ _ _ Hrun Hrest), Hp1.
    rewrite Hin, Z.eqb_refl. simpl.
    pose proof (purchased_absent cart id Hrest) as H0.
    unfold purchased in H0. rewrite H0. do 2 f_equal. lia.
Qed.

(** C3. After a checkout that went through, the stock of every product of
    the cart is its stock before minus the quantity purchased, floored at
    0; the rest of the product row is as before. (Quantities of cart
    lines are not negative.) *)
Theorem checkout_decrements_stock
        (u : User.t) (req : Request) (db : Db float)
        (id : Z) (p : Product.t float) :
  (forall it, In it (user_cart db u) -> 0 <= CartItem.quantity it) ->
  placed (checkout u req db) ->
  In id (cart_products (user_cart db u)) ->
  get_product db id = Some p ->
  get_product (db_after (checkout u req db)) id
  = Some (Product.with_stock
            (Z.max 0 (Product.stock p - purchased (user_cart db u) id)) p).
Proof.
  intros Hq Hplaced Hin Hp.
  destruct (checkout_placed_inv _ _ _ Hplaced) as (total & _ & _ & _ & Hrun).
  exact (place_lines_stock _ _ _ _ _ _ Hq Hrun Hin Hp).
Qed.


(** C9. A checkout that went through changes, of the product table,
    stocks only, and only of the products of the cart of the user: every
    product row keeps all but its stock, and the rows of the products that
    are not in the cart are the same. The orders and order items there were
    are still there, before the new ones; users and categories are the
    same. The cart lines of the other users are as they were, cart lines
    having distinct ids. *)
Theorem checkout_frame (u : User.t) (req : Request) (db : Db float) :
  placed (checkout u req db) ->
  let db' := db_after (checkout u req db) in
  Forall2 (restocked (user_cart db u)) (products db) (products db')
  /\ (forall id, ~ In id (cart_products (user_cart db u)) ->
                 get_product db' id = get_product db id)
  /\ (exists order, orders db' = (orders db ++ [order])%list)
  /\ (exists new, order_items db' = (order_items db ++ new)%list)
  /\ users db' = users db
  /\ categories db' = categories db
  /\ (NoDup (map CartItem.id (cart_items db)) ->
      other_carts db' u = other_carts db u).
Proof.
  intros Hplaced db'.
  destruct (checkout_placed_inv _ _ _ Hplaced) as (total & _ & _ & _ & Hrun).
  fold db' in Hrun.
  destruct (place_lines_frame _ _ _ _ Hrun) as (Hu & Hc & Ho).
  pose proof (place_lines_cart _ _ _ _ Hrun) as Hcart.
  destruct (place_lines_items _ _ _ _ Hrun) as (new & Hitems & _).
  pose proof (place_lines_products _ _ _ _ Hrun) as Hprod.
  simpl in Hu, Hc, Ho, Hcart, Hitems, Hprod.
  split; [exact Hprod|]. split; [|split; [|split; [|split; [|split]]]];
    try assumption.
  - intros id Hid.
    now rewrite (place_lines_other_product _ _ _ _ _ Hrun Hid).
  - eexists. exact Ho.
  - exists new. exact Hitems.
  - intros Hpk. unfold other_carts. rewrite Hcart, filter_comm.
    apply filter_all. intros c Hc'. apply filter_In in Hc' as [Hin Hother].
    apply negb_true_iff. destruct (deleted (user_cart db u) c) eqn:Hdel;
      [|reflexivity].
    apply existsb_exists in Hdel as (it & Hit & Hid).
    apply filter_In in Hit as [Hit Hmine]. apply Z.eqb_eq in Hid.
    rewrite (NoDup_map_eq CartItem.id _ c it Hpk Hin Hit Hid) in Hother.
    rewrite Hmine in Hother. discriminate.
Qed.

(** *** The cart *)

Lemma clamp_range (n : Z) : 1 <= Z.min (Z.max 1 n) 100 <= 100.
Proof. lia. Qed.

Lemma set_quantity_ok (item : CartItem.t) (q : Z) (db : Db float) :
  1 <= q <= 100 -> cart_ok db -> cart_ok (set_quantity item q db).
Proof.
  unfold cart_ok, set_quantity; simpl. intros Hq Hok.
  apply Forall_map. eapply Forall_impl; [|exact Hok].
  intros c Hc. now destruct (CartItem.id c =? CartItem.id item).
Qed.

Lemma delete_cart_item_ok (item : CartItem.t) (db : Db float) :
  cart_ok db -> cart_ok (delete_cart_item item db).
Proof.
  unfold cart_ok, delete_cart_item; simpl. intros Hok.
  apply Forall_forall. intros c Hc. apply filter_In in Hc as [Hc _].
  revert c Hc. now apply Forall_forall.
Qed.

(** What the update loop does with one field: nothing, or it sets the
    quantity of a line to the clamped value. *)
Lemma update_field_cases (u : User.t) (st : Db float) (key value : string) :
  update_field u st (key, value) = st
  \/ exists item n,
       py_int value = Some n
       /\ update_field u st (key, value)
          = set_quantity item (Z.min (Z.max 1 n) 100) st.
Proof.
  unfold update_field.
  destruct (Py.startswith key "quantity_"); [|now left].
  destruct (Py.index (Py.split "_" key) 1) as [id|]; simpl; [|now left].
  destruct (py_int id) as [pid|]; simpl; [|now left].
  destruct (py_int value) as [n|]; simpl; [|now left].
  destruct (find_cart_item st u pid) as [item|]; [|now left].
  right. now exists item, n.
Qed.

Lemma update_field_skips (u : User.t) (st : Db float) (key value : string) :
  py_int value = None -> update_field u st (key, value) = st.
Proof.
  intros Hv. destruct (update_field_cases u st key value)
    as [Hsame|(item & n & Hn & _)]; [assumption | congruence].
Qed.

Lemma update_field_ok (u : User.t) (st : Db float) (field : string * string) :
  cart_ok st -> cart_ok (update_field u st field).
Proof.
  destruct field as [key value]. intros Hok.
  destruct (update_field_cases u st key value)
    as [->|(item & n & _ & ->)]; [assumption|].
  apply set_quantity_ok; [apply clamp_range | assumption].
Qed.

Lemma cart_post_ok (u : User.t) (req : Request) (db : Db float) :
  cart_ok db -> cart_ok (cart_post u req db).
Proof.
  unfold cart_post. intros Hok.
  destruct (MultiDict.contains "update" (form req)).
  - revert db Hok.
    induction (MultiDict.items (form req)) as [|f fs IH]; intros db Hok;
      simpl; [assumption|].
    apply IH. now apply update_field_ok.
  - destruct (MultiDict.contains "remove" (form req)); [|assumption].
    destruct (bind _ _) as [pid|]; [|assumption].
    destruct (find_cart_item db u pid); [|assumption].
    now apply delete_cart_item_ok.
Qed.

Lemma cart_ok_view (u : User.t) (req : Request) (db : Db float) :
  cart_ok db -> cart_ok (db_after (cart u req db)).
Proof.
  intros Hok. unfold cart.
  assert (Hpost : cart_ok match method req with
                          | GET => db
                          | POST => cart_post u req db
                          end)
    by (destruct (method req); [assumption | now apply cart_post_ok]).
  now destruct (cart_total _ _).
Qed.

Lemma find_cart_item_in (db : Db float) (u : User.t) (pid : Z) (c : CartItem.t) :
  find_cart_item db u pid = Some c -> In c (cart_items db).
Proof. unfold find_cart_item. intros Hf. now apply find_some in Hf. Qed.

Lemma add_to_cart_ok (pid : Z) (u : User.t) (req : Request) (db : Db float) :
  cart_ok db -> cart_ok (db_after (add_to_cart pid u req db)).
Proof.
  intros Hok. unfold add_to_cart.
  destruct (get_product db pid); [|assumption]. simpl.
  destruct (find_cart_item db u pid) as [c|] eqn:Hc.
  - apply set_quantity_ok; [|assumption].
    apply find_cart_item_in in Hc.
    unfold cart_ok in Hok. rewrite Forall_forall in Hok.
    specialize (Hok c Hc). lia.
  - unfold cart_ok, add_cart_item; simpl. apply Forall_app. split; [assumption|].
    constructor; [simpl; lia | constructor].
Qed.

(** A checkout either places the order or leaves the store as it was. *)
Lemma checkout_or_nothing (u : User.t) (req : Request) (db : Db float) :
  placed (checkout u req db) \/ db_after (checkout u req db) = db.
Proof.
  unfold placed, checkout. destruct (method req).
  - right. now destruct (cart_total _ _).
  - destruct (user_cart db u) as [|it cart]; [now right|].
    destruct (check_stock db (it :: cart)); try now right.
    destruct (bind _ _); [now left | now right].
Qed.

Lemma checkout_ok (u : User.t) (req : Request) (db : Db float) :
  cart_ok db -> cart_ok (db_after (checkout u req db)).
Proof.
  intros Hok. destruct (checkout_or_nothing u req db) as [Hplaced| ->];
    [|assumption].
  destruct (checkout_placed_inv _ _ _ Hplaced) as (total & _ & _ & _ & Hrun).
  unfold cart_ok. rewrite (place_lines_cart _ _ _ _ Hrun). simpl.
  apply Forall_forall. intros c Hc. apply filter_In in Hc as [Hc _].
  revert c Hc. now apply Forall_forall.
Qed.

(** The wrappers of a view keep what the view keeps. *)
Lemma login_required_keeps (P : Db float -> Db float -> Prop)
      (view : User.t -> Request -> Db float -> Reply float)
      (req : Request) (db : Db float) :
  P db db ->
  (forall u, P db (db_after (view u req db))) ->
  P db (db_after (login_required view req db)).
Proof.
  intros Hrefl Hview. unfold login_required.
  destruct (bind _ _); [apply Hview | exact Hrefl].
Qed.

Lemma get_only_keeps (P : Db float -> Db float -> Prop)
      (view : Request -> Db float -> Reply float)
      (req : Request) (db : Db float) :
  P db db ->
  P db (db_after (view req db)) ->
  P db (db_after (get_only view req db)).
Proof.
  intros Hrefl Hview. unfold get_only. now destruct (method req).
Qed.

Lemma login_after (req : Request) (db : Db float) :
  db_after (login req db) = db.
Proof.
  unfold login. destruct (method req); [reflexivity|].
  destruct (bind _ _) as [[email password]|]; [|reflexivity].
  destruct (find_user db email) as [user|]; [|reflexivity].
  now destruct (check_password_hash _ _).
Qed.

Lemma register_after (req : Request) (db : Db float) :
  db_after (register req db) = db
  \/ exists user, db_after (register req db) = add_user user db.
Proof.
  unfold register. destruct (method req); [now left|].
  destruct (bind _ _) as [[[[email password] name] address]|]; [|now left].
  destruct (find_user db email); [now left|].
  right. now eexists.
Qed.

Lemma profile_after (u : User.t) (req : Request) (db : Db float) :
  db_after (profile u req db) = db
  \/ exists name address,
       db_after (profile u req db) = set_profile u name address db.
Proof.
  unfold profile. destruct (method req); [now left|].
  right. now do 2 eexists.
Qed.

Lemma dispatch_ok (route : Route) (req : Request) (db : Db float) :
  cart_ok db -> cart_ok (db_after (dispatch route req db)).
Proof.
  intros Hok.
  set (P := fun (_ db' : Db float) => cart_ok db').
  change (P db (db_after (dispatch route req db))).
  destruct route; simpl;
    repeat first [ apply get_only_keeps
                 | apply login_required_keeps; [|intros u] ];
    unfold P; try assumption.
  - unfold product. now destruct (get_product db id).
  - now apply cart_ok_view.
  - now apply add_to_cart_ok.
  - now apply checkout_ok.
  - now rewrite login_after.
  - destruct (register_after req db) as [->|[user ->]]; assumption.
  - destruct (profile_after u req db) as [->|(n & a & ->)]; assumption.
Qed.

(** C6. No request to the application takes a cart line out of [1,100]:
    when every quantity of the store is in the range, it is after any
    request to any route, the bulk update and add-to-cart among them. The
    update loop skips a field whose value is not a number, and a field
    whose value is a number either changes nothing or sets the quantity of
    a line to the value clamped to [1,100], whatever the number. *)
Theorem cart_quantity_in_range (db : Db float) :
  cart_ok db ->
  (forall route req, cart_ok (db_after (dispatch route req db)))
  /\ (forall u req, cart_ok (db_after (cart u req db)))
  /\ (forall pid u req, cart_ok (db_after (add_to_cart pid u req db)))
  /\ (forall u key value,
        py_int value = None -> update_field u db (key, value) = db)
  /\ (forall u key value n,
        py_int value = Some n ->
        1 <= Z.min (Z.max 1 n) 100 <= 100
        /\ (update_field u db (key, value) = db
            \/ exists item,
                 update_field u db (key, value)
                 = set_quantity item (Z.min (Z.max 1 n) 100) db)).
Proof.
  intros Hok. repeat split.
  - intros route req. now apply dispatch_ok.
  - intros u req. now apply cart_ok_view.
  - intros pid u req. now apply add_to_cart_ok.
  - intros u key value. apply update_field_skips.
  - lia.
  - lia.
  - destruct (update_field_cases u db key value)
      as [Hsame|(item & m & Hm & Hset)]; [now left|].
    right. exists item. congruence.
Qed.

(** [add_to_cart] keeps the cart of the user at one line for a product: it
    adds a line only when it finds none. *)
Lemma NoDup_snoc {A} (l : list A) (x : A) :
  NoDup l -> ~ In x l -> NoDup (l ++ [x]).
Proof.
  induction l as [|a l IH]; simpl; intros Hnd Hx.
  - constructor; [tauto | constructor].
  - inversion Hnd as [|? ? Ha Hl]; subst. constructor.
    + rewrite in_app_iff. simpl. intuition congruence.
    + apply IH; tauto.
Qed.

Lemma add_to_cart_one_line
      (pid : Z) (u : User.t) (req : Request) (db : Db float) :
  NoDup (cart_products (user_cart db u)) ->
  NoDup (cart_products (user_cart (db_after (add_to_cart pid u req db)) u)).
Proof.
  intros Hnd. unfold add_to_cart.
  destruct (get_product db pid); [|assumption]. simpl.
  destruct (find_cart_item db u pid) as [c|] eqn:Hc.
  - replace (cart_products (user_cart (set_quantity c _ db) u))
      with (cart_products (user_cart db u)); [assumption|].
    unfold cart_products, user_cart, set_quantity; simpl.
    induction (cart_items db) as [|x l IH]; simpl; [reflexivity|].
    assert (Hx : CartItem.user_id
                   (if CartItem.id x =? CartItem.id c
                    then CartItem.with_quantity
                           (Z.min (CartItem.quantity c + 1) 100) x
                    else x) = CartItem.user_id x)
      by now destruct (CartItem.id x =? CartItem.id c).
    rewrite Hx. destruct (CartItem.user_id x =? User.id u); simpl;
      rewrite IH; [|reflexivity].
    now destruct (CartItem.id x =? CartItem.id c).
  - unfold cart_products, user_cart, add_cart_item; simpl.
    rewrite filter_app, map_app. simpl. rewrite Z.eqb_refl. simpl.
    apply NoDup_snoc; [assumption|].
    intros Hin. apply in_map_iff in Hin as (x & Hpid & Hx).
    apply filter_In in Hx as [Hx Hu].
    unfold find_cart_item in Hc.
    apply find_none with (x := x) in Hc; [|assumption].
    rewrite Hu, Hpid, Z.eqb_refl in Hc. discriminate.
Qed.

(** *** The ledger of orders *)

Lemma ledger_kept_refl (db : Db float) : ledger_kept db db.
Proof. split; exists []; now rewrite app_nil_r. Qed.

Lemma ledger_kept_trans (a b c : Db float) :
  ledger_kept a b -> ledger_kept b c -> ledger_kept a c.
Proof.
  intros [[os Ho] [ois Hi]] [[os' Ho'] [ois' Hi']]. split.
  - exists (os ++ os')%list. now rewrite Ho', Ho, app_assoc.
  - exists (ois ++ ois')%list. now rewrite Hi', Hi, app_assoc.
Qed.

Lemma ledger_kept_same (db db' : Db float) :
  orders db' = orders db -> order_items db' = order_items db ->
  ledger_kept db db'.
Proof.
  intros Ho Hi. split; exists []; now rewrite app_nil_r.
Qed.

Lemma update_field_ledger (u : User.t) (st : Db float) (field : string * string) :
  orders (update_field u st field) = orders st
  /\ order_items (update_field u st field) = order_items st.
Proof.
  destruct field as [key value].
  destruct (update_field_cases u st key value)
    as [->|(item & n & _ & ->)]; now split.
Qed.

Lemma cart_post_ledger (u : User.t) (req : Request) (db : Db float) :
  orders (cart_post u req db) = orders db
  /\ order_items (cart_post u req db) = order_items db.
Proof.
  unfold cart_post.
  destruct (MultiDict.contains "update" (form req)).
  - revert db.
    induction (MultiDict.items (form req)) as [|f fs IH]; intros db; simpl;
      [now split|].
    destruct (IH (update_field u db f)) as [-> ->].
    apply update_field_ledger.
  - destruct (MultiDict.contains "remove" (form req)); [|now split].
    destruct (bind _ _) as [pid|]; [|now split].
    now destruct (find_cart_item db u pid).
Qed.

Lemma checkout_ledger (u : User.t) (req : Request) (db : Db float) :
  ledger_kept db (db_after (checkout u req db)).
Proof.
  destruct (checkout_or_nothing u req db) as [Hplaced| ->];
    [|apply ledger_kept_refl].
  destruct (checkout_placed_inv _ _ _ Hplaced) as (total & _ & _ & _ & Hrun).
  destruct (place_lines_frame _ _ _ _ Hrun) as (_ & _ & Ho).
  destruct (place_lines_items _ _ _ _ Hrun) as (new & Hi & _).
  split; [eexists; exact Ho | exists new; exact Hi].
Qed.

Lemma dispatch_ledger (route : Route) (req : Request) (db : Db float) :
  ledger_kept db (db_after (dispatch route req db)).
Proof.
  pose proof (ledger_kept_refl db) as Hrefl.
  destruct route; simpl;
    repeat first [ apply get_only_keeps
                 | apply login_required_keeps; [|intros u] ];
    try assumption.
  - unfold product. now destruct (get_product db id).
  - unfold cart. destruct (method req).
    + now destruct (cart_total _ _).
    + destruct (cart_post_ledger u req db) as [Ho Hi].
      destruct (cart_total _ _); now apply ledger_kept_same.
  - unfold add_to_cart. destruct (get_product db product_id); [|assumption].
    destruct (find_cart_item db u product_id); now apply ledger_kept_same.
  - apply checkout_ledger.
  - now rewrite login_after.
  - destruct (register_after req db) as [->|[user ->]];
      [assumption | now apply ledger_kept_same].
  - destruct (profile_after u req db) as [->|(n & a & ->)];
      [assumption | now apply ledger_kept_same].
Qed.

Lemma later_ledger (db db' : Db float) : later db db' -> ledger_kept db db'.
Proof.
  induction 1 as [|db' route req _ IH|db' f _ IH].
  - apply ledger_kept_refl.
  - eapply ledger_kept_trans; [exact IH | apply dispatch_ledger].
  - eapply ledger_kept_trans; [exact IH | now apply ledger_kept_same].
Qed.

(** C4. The price of every order item a checkout creates is the price its
    product has in the store at that checkout. Whatever happens to the
    store afterwards, requests to the application or edits of the product
    table such as a change of price, the orders and order items of the
    store after the checkout stay as they are, the item's price and the
    order's total with them. *)
Theorem checkout_snapshots_price (u : User.t) (req : Request) (db : Db float) :
  placed (checkout u req db) ->
  let db' := db_after (checkout u req db) in
  exists new,
    order_items db' = (order_items db ++ new)%list
    /\ (forall oi, In oi new ->
          exists p, get_product db (OrderItem.product_id oi) = Some p
                    /\ OrderItem.price oi = Product.price p)
    /\ (forall f, orders (update_products f db') = orders db'
                  /\ order_items (update_products f db') = order_items db')
    /\ (forall db'', later db' db'' -> ledger_kept db' db'').
Proof.
  intros Hplaced db'.
  destruct (checkout_placed_inv _ _ _ Hplaced) as (total & _ & _ & _ & Hrun).
  fold db' in Hrun.
  destruct (place_lines_items _ _ _ _ Hrun) as (new & Hi & Hrec).
  exists new. split; [exact Hi|]. split; [|split].
  - intros oi Hoi.
    destruct (Forall2_In_right _ _ _ Hrec oi Hoi)
      as (it & _ & _ & Hpid & _ & p & Hp & Hprice).
    exists p. split; [|assumption]. rewrite Hpid. exact Hp.
  - intros f. now split.
  - apply later_ledger.
Qed.

(** *** The catalogue *)

Section Sorting.

Variables (A : Type) (leb : A -> A -> bool).
Hypothesis leb_total : forall a b, leb a b = true \/ leb b a = true.

Let R (a b : A) : Prop := leb a b = true.

Lemma insert_by_hd (a x : A) (l : list A) :
  R a x -> HdRel R a l -> HdRel R a (insert_by leb x l).
Proof.
  intros Hax Hal. destruct l as [|y l]; simpl; [now constructor|].
  destruct (leb x y); constructor; [assumption|].
  now apply HdRel_inv in Hal.
Qed.

Lemma insert_by_sorted (x : A) (l : list A) :
  Sorted R l -> Sorted R (insert_by leb x l).
Proof.
  induction l as [|y l IH]; simpl; intros Hs.
  - repeat constructor.
  - apply Sorted_inv in Hs as [Hl Hy].
    destruct (leb x y) eqn:Exy.
    + constructor; [now constructor | now constructor].
    + constructor; [now apply IH|].
      apply insert_by_hd; [|assumption].
      destruct (leb_total x y) as [Hxy|Hyx]; [congruence | exact Hyx].
Qed.

Lemma order_by_sorted (l : list A) : Sorted R (order_by leb l).
Proof.
  unfold order_by. induction l as [|x l IH]; simpl; [constructor|].
  now apply insert_by_sorted.
Qed.

End Sorting.

Lemma insert_by_in {A} (leb : A -> A -> bool) (x y : A) (l : list A) :
  In y (insert_by leb x l) -> y = x \/ In y l.
Proof.
  induction l as [|z l IH]; simpl.
  - intros [<-|[]]. now left.
  - destruct (leb x z); simpl.
    + intros [<-|Hin]; [now left | now right].
    + intros [<-|Hin]; [right; now left|].
      destruct (IH Hin) as [->|Hl]; [now left | right; now right].
Qed.

Lemma order_by_in {A} (leb : A -> A -> bool) (y : A) (l : list A) :
  In y (order_by leb l) -> In y l.
Proof.
  unfold order_by. induction l as [|x l IH]; simpl; [tauto|].
  intros Hin. apply insert_by_in in Hin as [->|Hin]; [now left|].
  right. now apply IH.
Qed.

Lemma skipn_in {A} (n : nat) (l : list A) (x : A) :
  In x (skipn n l) -> In x l.
Proof.
  revert l. induction n as [|n IH]; intros [|a l]; simpl; auto.
Qed.

Lemma firstn_in {A} (n : nat) (l : list A) (x : A) :
  In x (firstn n l) -> In x l.
Proof.
  revert l. induction n as [|n IH]; intros [|a l]; simpl; auto.
  - tauto.
  - intros [<-|Hin]; [now left | right; now apply IH].
Qed.

Lemma skipn_sorted {A} (R : A -> A -> Prop) (n : nat) (l : list A) :
  Sorted R l -> Sorted R (skipn n l).
Proof.
  revert l. induction n as [|n IH]; intros [|a l] Hs; simpl; auto.
  apply IH. now apply Sorted_inv in Hs.
Qed.

Lemma firstn_sorted {A} (R : A -> A -> Prop) (n : nat) (l : list A) :
  Sorted R l -> Sorted R (firstn n l).
Proof.
  revert l. induction n as [|n IH]; intros [|a l] Hs; simpl; auto.
  apply Sorted_inv in Hs as [Hl Ha]. constructor; [now apply IH|].
  destruct n, l; simpl; constructor. now apply HdRel_inv in Ha.
Qed.

(** The page is a slice of the query. *)
Lemma home_page_items (req : Request) (db : Db float) :
  exists n m, items (home_page req db)
              = firstn n (skipn m (home_query req db)) /\ n = 6%nat.
Proof.
  unfold home_page, paginate. simpl. now do 2 eexists.
Qed.

Lemma home_query_sorted (req : Request) (db : Db float) :
  (forall a b : float, float_leb a b = true \/ float_leb b a = true) ->
  MultiDict.get "sort" (args req) = Some "price_high" ->
  Sorted price_not_above (home_query req db).
Proof.
  intros Htotal Hsort. unfold home_query. rewrite Hsort. simpl.
  apply (order_by_sorted _ price_desc).
  intros a b. apply Htotal.
Qed.

Lemma join_category_in (db : Db float) (p : Product.t float) :
  In p (join_category db) -> categorised db p.
Proof.
  unfold join_category. intros Hin.
  apply in_flat_map in Hin as (q & _ & Hq).
  apply in_map_iff in Hq as (c & -> & Hc).
  apply filter_In in Hc as [Hc Hid].
  destruct (Product.category_id p) as [cid|] eqn:Hcat; [|discriminate].
  exists cid, c. split; [assumption|]. split; [assumption|].
  now apply Z.eqb_eq.
Qed.

Lemma home_query_in (req : Request) (db : Db float) (p : Product.t float) :
  In p (home_query req db) -> In p (join_category db).
Proof.
  unfold home_query. intros Hin.
  assert (Hsorted : forall leb l, In p (order_by leb l) -> In p l)
    by (intros; eapply order_by_in; eauto).
  assert (Hq : forall l, In p
    match MultiDict.get "category" (args req) with
    | Some c =>
        if truthy (MultiDict.get "category" (args req)) then
          match py_int c with
          | Some cid =>
              filter (fun p => match Product.category_id p with
                               | Some k => k =? cid
                               | None => false
                               end) l
          | None => l
          end
        else l
    | None => l
    end -> In p l).
  { intros l. destruct (MultiDict.get "category" (args req)) as [c|]; auto.
    destruct (truthy (Some c)); auto.
    destruct (py_int c); auto. intros Hf. now apply filter_In in Hf. }
  assert (Hs : forall l, In p
    match MultiDict.get "search" (args req) with
    | Some s =>
        if truthy (MultiDict.get "search" (args req))
        then filter (fun p => sql_contains (Product.name p) s) l
        else l
    | None => l
    end -> In p l).
  { intros l. destruct (MultiDict.get "search" (args req)) as [s|]; auto.
    destruct (truthy (Some s)); auto. intros Hf. now apply filter_In in Hf. }
  apply Hs, Hq.
  destruct (String.eqb _ "price_low"); [now apply Hsorted in Hin|].
  destruct (String.eqb _ "price_high"); now apply Hsorted in Hin.
Qed.

(** C7. The listing of [home] has at most 6 products, whatever the page
    and the query; with [sort=price_high] the products of the page are in
    an order in which the price never increases, the store's order on
    prices being total. *)
Theorem home_sorts_by_price_and_pages (req : Request) (db : Db float) :
  response (home req db)
  = Render "home.html" (HomeCtx (home_page req db) (categories db))
  /\ (List.length (items (home_page req db)) <= 6)%nat
  /\ ((forall a b : float, float_leb a b = true \/ float_leb b a = true) ->
      MultiDict.get "sort" (args req) = Some "price_high" ->
      Sorted price_not_above (items (home_page req db))).
Proof.
  split; [reflexivity|].
  destruct (home_page_items req db) as (n & m & -> & ->). split.
  - apply firstn_le_length.
  - intros Htotal Hsort. apply firstn_sorted, skipn_sorted.
    now apply home_query_sorted.
Qed.

(** Every product on a page of [home] has a category of the store. *)
Lemma home_page_categorised
      (req : Request) (db : Db float) (p : Product.t float) :
  In p (items (home_page req db)) -> categorised db p.
Proof.
  destruct (home_page_items req db) as (n & m & -> & _). intros Hin.
  apply firstn_in, skipn_in, home_query_in in Hin.
  now apply join_category_in.
Qed.

(** C10. A product whose [category_id] is null or is the id of no category
    is on no page of [home], whatever the search, the category filter, the
    sort and the page. *)
Theorem home_skips_uncategorised
        (req : Request) (db : Db float) (p : Product.t float) :
  Product.category_id p = None
  \/ (exists cid, Product.category_id p = Some cid
                  /\ forall c, In c (categories db) -> Category.id c <> cid) ->
  ~ In p (items (home_page req db)).
Proof.
  intros Hbad Hin.
  destruct (home_page_categorised req db p Hin) as (cid & c & Hp & Hc & Hid).
  destruct Hbad as [Hnone|(cid' & Hsome & Hno)]; [congruence|].
  rewrite Hp in Hsome. injection Hsome as <-. now apply (Hno c).
Qed.

(** *** Accounts *)

Lemma find_app {A} (f : A -> bool) (l l' : list A) :
  find f (l ++ l') = match find f l with
                     | Some x => Some x
                     | None => find f l'
                     end.
Proof.
  induction l as [|a l IH]; simpl; [reflexivity|].
  now destruct (f a).
Qed.

Lemma find_user_taken (db : Db float) (email : string) :
  (exists u, In u (users db) /\ User.email u = email) ->
  exists u, find_user db email = Some u.
Proof.
  intros (u & Hin & Hemail). unfold find_user.
  destruct (find _ (users db)) as [v|] eqn:Hf; [now exists v|].
  apply find_none with (x := u) in Hf; [|assumption].
  rewrite Hemail, String.eqb_refl in Hf. discriminate.
Qed.

Lemma find_user_fresh (db : Db float) (email : string) :
  (forall u, In u (users db) -> User.email u <> email) ->
  find_user db email = None.
Proof.
  intros Hfresh. unfold find_user.
  destruct (find _ (users db)) as [v|] eqn:Hf; [|reflexivity].
  apply find_some in Hf as [Hin Heq]. apply String.eqb_eq in Heq.
  now apply Hfresh in Hin.
Qed.

(** C8. A registration (a POST with the four fields) with the email of an
    account of the store is answered by the flash "Email already
    registered" and leaves the store, its users among them, as it was. A
    registration with an email of no account adds one user, with the hash
    of the password; a login with that email and that password then
    succeeds as that user, the stored hash checking against the
    password. *)
Theorem register_once_then_login
        (req : Request) (db : Db float) (email pw name address : string) :
  method req = POST ->
  MultiDict.get "email" (form req) = Some email ->
  MultiDict.get "password" (form req) = Some pw ->
  MultiDict.get "name" (form req) = Some name ->
  MultiDict.get "address" (form req) = Some address ->
  ((exists u, In u (users db) /\ User.email u = email) ->
   register req db
   = mkReply (Render "register.html" NoCtx) ["Email already registered"]
             db (session req))
  /\ ((forall u, In u (users db) -> User.email u <> email) ->
      exists user,
        db_after (register req db) = add_user user db
        /\ users (db_after (register req db)) = (users db ++ [user])%list
        /\ User.email user = email
        /\ User.password user = generate_password_hash (salt req) pw
        /\ forall req',
             check_password_hash (User.password user) pw = true ->
             method req' = POST ->
             MultiDict.get "email" (form req') = Some email ->
             MultiDict.get "password" (form req') = Some pw ->
             login req' (db_after (register req db))
             = mkReply (Redirect "home") [] (db_after (register req db))
                       (Some (User.id user))).
Proof.
  intros Hpost He Hp Hn Ha. unfold register.
  rewrite Hpost, He, Hp, Hn, Ha. simpl. split.
  - intros Htaken. destruct (find_user_taken db email Htaken) as [u ->].
    reflexivity.
  - intros Hfresh. rewrite (find_user_fresh db email Hfresh).
    eexists. repeat (split; [reflexivity|]).
    intros req' Hcheck Hpost' He' Hp'. simpl in Hcheck. unfold login.
    rewrite Hpost', He', Hp'. simpl.
    unfold find_user, add_user; simpl. rewrite find_app.
    fold (find_user db email). rewrite (find_user_fresh db email Hfresh).
    simpl. rewrite String.eqb_refl. simpl. rewrite Hcheck. reflexivity.
Qed.

(** *** More on checkout *)

Lemma check_stock_passes (db : Db float) (cart : list CartItem.t) :
  (forall item, In item cart ->
     exists p, product_of db item = Some p
               /\ CartItem.quantity item <= Product.stock p) ->
  check_stock db cart = Available.
Proof.
  induction cart as [|it cart IH]; intros Hall; [reflexivity|]. simpl.
  destruct (Hall it (or_introl eq_refl)) as (p & -> & Hle).
  apply Z.ltb_ge in Hle. rewrite Hle.
  apply IH. intros item Hin. apply Hall. now right.
Qed.

(** X1. A request to checkout places an order exactly when it is a POST,
    the cart of the user is not empty and every line of it has a product
    whose stock covers the quantity of the line. *)
Theorem checkout_placed_iff (u : User.t) (req : Request) (db : Db float) :
  placed (checkout u req db)
  <-> method req = POST
      /\ user_cart db u <> []
      /\ forall item, In item (user_cart db u) ->
           exists p, product_of db item = Some p
                     /\ CartItem.quantity item <= Product.stock p.
Proof.
  split.
  - intros Hplaced.
    destruct (checkout_placed_inv _ _ _ Hplaced) as (total & Hpost & Hck & _).
    split; [assumption|]. split.
    + intros Hnil. unfold placed, checkout in Hplaced.
      rewrite Hpost, Hnil in Hplaced. discriminate.
    + now apply check_stock_available.
  - intros (Hpost & Hne & Hall).
    apply checkout_places; auto using check_stock_passes.
Qed.

(** X2. A checkout is all or nothing, on every path: either the order is
    placed, or the store after the request is the store before it. The
    login session is never changed, and a POST with an empty cart is
    answered by the redirect to the cart with the flash "Cart is empty!". *)
Theorem checkout_all_or_nothing (u : User.t) (req : Request) (db : Db float) :
  session_after (checkout u req db) = session req
  /\ (placed (checkout u req db) \/ db_after (checkout u req db) = db)
  /\ (method req = POST -> user_cart db u = [] ->
      checkout u req db = mkReply (Redirect "cart") ["Cart is empty!"]
                                  db (session req)).
Proof.
  split; [|split].
  - unfold checkout. destruct (method req).
    + now destruct (cart_total _ _).
    + destruct (user_cart db u) as [|it cart]; [reflexivity|].
      destruct (check_stock db (it :: cart)); try reflexivity.
      now destruct (bind _ _).
  - apply checkout_or_nothing.
  - intros Hpost Hnil. unfold checkout. now rewrite Hpost, Hnil.
Qed.

(** X3. The total of the order a checkout places is the total the
    checkout page and the cart page show for the same store. *)
Theorem checkout_charges_shown_total
        (u : User.t) (req page : Request) (db : Db float) :
  placed (checkout u req db) ->
  method page = GET ->
  exists order total,
    orders (db_after (checkout u req db)) = (orders db ++ [order])%list
    /\ Order.total order = total
    /\ response (checkout u page db)
       = Render "checkout.html" (CartCtx (user_cart db u) total)
    /\ response (cart u page db)
       = Render "cart.html" (CartCtx (user_cart db u) total).
Proof.
  intros Hplaced Hget.
  destruct (checkout_placed_inv _ _ _ Hplaced) as (total & _ & _ & Ht & Hrun).
  destruct (place_lines_frame _ _ _ _ Hrun) as (_ & _ & Ho).
  eexists. exists total. split; [exact Ho|]. split; [reflexivity|].
  unfold checkout, cart. rewrite Hget, Ht. now split.
Qed.

Lemma place_lines_stock_unique (oid : Z) (cart : list CartItem.t) :
  forall (st st' : Db float) (item : CartItem.t) (p : Product.t float),
    foldM (place_line oid) cart st = Some st' ->
    NoDup (cart_products cart) ->
    In item cart ->
    product_of st item = Some p ->
    get_product st' (CartItem.product_id item)
    = Some (Product.with_stock
              (Z.max 0 (Product.stock p - CartItem.quantity item)) p).
Proof.
  induction cart as [|it cart IH]; intros st st' item p Hrun Hnd Hin Hp;
    [destruct Hin|].
  loop_step Hrun Hstep st1. simpl in Hnd.
  inversion Hnd as [|? ? Hfresh Hrest]; subst.
  pose proof (place_line_product oid st st1 it
                (CartItem.product_id item) Hstep) as Hp1.
  unfold product_of in Hp. rewrite Hp in Hp1. simpl in Hp1.
  destruct Hin as [->|Hin].
  - rewrite Z.eqb_refl in Hp1.
    now rewrite (place_lines_other_product _ _ _ _ _ Hrun Hfresh).
  - destruct (CartItem.product_id item =? CartItem.product_id it) eqn:E.
    + apply Z.eqb_eq in E. exfalso. apply Hfresh. rewrite <- E.
      unfold cart_products. now apply in_map.
    + now apply (IH st1 st' item p Hrun Hrest Hin).
Qed.

(** X4. With one line for a product in the cart, a checkout that went
    through takes from the stock of every product of the cart exactly the
    quantity of its line: the stock after is the stock before minus the
    quantity, which is not negative, so that no unit is sold that was not
    in stock. *)
Theorem checkout_takes_exact_quantity
        (u : User.t) (req : Request) (db : Db float)
        (item : CartItem.t) (p : Product.t float) :
  placed (checkout u req db) ->
  NoDup (cart_products (user_cart db u)) ->
  In item (user_cart db u) ->
  product_of db item = Some p ->
  0 <= Product.stock p - CartItem.quantity item
  /\ get_product (db_after (checkout u req db)) (CartItem.product_id item)
     = Some (Product.with_stock
               (Product.stock p - CartItem.quantity item) p).
Proof.
  intros Hplaced Hnd Hin Hp.
  destruct (checkout_placed_inv _ _ _ Hplaced) as (total & _ & Hck & _ & Hrun).
  destruct (check_stock_available _ _ Hck item Hin) as (q & Hq & Hle).
  rewrite Hp in Hq. injection Hq as <-.
  split; [lia|].
  rewrite (place_lines_stock_unique _ _ _ _ item p Hrun Hnd Hin Hp).
  do 2 f_equal. lia.
Qed.

(** *** More on the cart *)

Lemma find_map_same {A} (f : A -> bool) (g : A -> A) (l : list A) :
  (forall x, f (g x) = f x) -> find f (map g l) = option_map g (find f l).
Proof.
  intros Hfg. induction l as [|a l IH]; simpl; [reflexivity|].
  rewrite Hfg. now destruct (f a).
Qed.

Lemma find_cart_item_set_quantity
      (db : Db float) (u : User.t) (pid q : Z) (c c0 : CartItem.t) :
  find_cart_item db u pid = Some c0 ->
  CartItem.id c = CartItem.id c0 ->
  find_cart_item (set_quantity c q db) u pid
  = Some (CartItem.with_quantity q c0).
Proof.
  intros Hc Hid. unfold find_cart_item, set_quantity in *; simpl.
  rewrite find_map_same.
  - rewrite Hc. simpl. now rewrite Hid, Z.eqb_refl.
  - intros x. now destruct (CartItem.id x =? CartItem.id c).
Qed.

Lemma add_to_cart_line
        (pid : Z) (u : User.t) (req : Request) (db : Db float) :
  (get_product db pid = None ->
   add_to_cart pid u req db = mkReply (Abort 404) [] db (session req))
  /\ (get_product db pid <> None ->
      exists line,
        find_cart_item (db_after (add_to_cart pid u req db)) u pid = Some line
        /\ CartItem.user_id line = User.id u
        /\ CartItem.product_id line = pid
        /\ CartItem.quantity line
           = match find_cart_item db u pid with
             | Some old => Z.min (CartItem.quantity old + 1) 100
             | None => 1
             end).
Proof.
  unfold add_to_cart. split.
  - now intros ->.
  - intros Hsome. destruct (get_product db pid) as [prod|]; [|congruence].
    simpl. destruct (find_cart_item db u pid) as [old|] eqn:Hold.
    + rewrite (find_cart_item_set_quantity db u pid _ old old Hold eq_refl).
      eexists. split; [reflexivity|].
      unfold find_cart_item in Hold. apply find_some in Hold as [_ Hk].
      apply andb_true_iff in Hk as [Hu Hp].
      apply Z.eqb_eq in Hu, Hp. now simpl.
    + unfold find_cart_item, add_cart_item in *; simpl.
      rewrite find_app, Hold. simpl. rewrite !Z.eqb_refl. simpl.
      eexists. split; [reflexivity|]. now simpl.
Qed.


Lemma cart_post_same_but_cart (u : User.t) (req : Request) (db : Db float) :
  same_but_cart db (cart_post u req db).
Proof.
  unfold cart_post.
  destruct (MultiDict.contains "update" (form req)).
  - revert db.
    induction (MultiDict.items (form req)) as [|[key value] fs IH];
      intros db; cbn [fold_left]; [now repeat split|].
    unfold same_but_cart in *.
    destruct (IH (update_field u db (key, value))) as (-> & -> & -> & -> & ->).
    destruct (update_field_cases u db key value)
      as [->|(item & n & _ & ->)]; now repeat split.
  - destruct (MultiDict.contains "remove" (form req)); [|now repeat split].
    destruct (bind _ _) as [pid|]; [|now repeat split].
    destruct (find_cart_item db u pid); now repeat split.
Qed.

Lemma cart_views_same_but_cart
      (pid : Z) (u : User.t) (req : Request) (db : Db float) :
  same_but_cart db (db_after (cart u req db))
  /\ same_but_cart db (db_after (add_to_cart pid u req db)).
Proof.
  split.
  - unfold cart. destruct (method req).
    + destruct (cart_total _ _); now repeat split.
    + pose proof (cart_post_same_but_cart u req db).
      now destruct (cart_total _ _).
  - unfold add_to_cart. destruct (get_product db pid); [|now repeat split].
    destruct (find_cart_item db u pid); now repeat split.
Qed.

Lemma cart_writes_cart_only_users
      (pid : Z) (u : User.t) (req : Request) (db : Db float) :
  users (db_after (cart u req db)) = users db
  /\ users (db_after (add_to_cart pid u req db)) = users db.
Proof.
  destruct (cart_views_same_but_cart pid u req db) as [(Hu & _) (Hu' & _)].
  now split.
Qed.

(** X6. The cart page and [add_to_cart] write the cart table only: users,
    categories, products (their stock among the rest), orders and order
    items are after the request what they were before, whatever the
    request. *)
Theorem cart_writes_cart_only
        (pid : Z) (u : User.t) (req : Request) (db : Db float) :
  same_but_cart db (db_after (cart u req db))
  /\ same_but_cart db (db_after (add_to_cart pid u req db)).
Proof. apply cart_views_same_but_cart. Qed.

Lemma set_quantity_others
      (db : Db float) (u : User.t) (pid q : Z) (c : CartItem.t) :
  NoDup (map CartItem.id (cart_items db)) ->
  find_cart_item db u pid = Some c ->
  other_carts (set_quantity c q db) u = other_carts db u.
Proof.
  intros Hpk Hc. unfold find_cart_item in Hc.
  apply find_some in Hc as [Hin Hk].
  apply andb_true_iff in Hk as [Hu _].
  unfold other_carts, set_quantity; simpl.
  assert (Hall : forall x, In x (cart_items db) ->
                           CartItem.id x = CartItem.id c -> x = c)
    by (intros x Hx Hid; now apply (NoDup_map_eq CartItem.id (cart_items db))).
  revert Hall. clear Hpk Hin.
  induction (cart_items db) as [|x l IH]; intros Hall; simpl; [reflexivity|].
  assert (IH' := IH (fun y Hy => Hall y (or_intror Hy))).
  destruct (CartItem.id x =? CartItem.id c) eqn:E; simpl.
  - apply Z.eqb_eq in E. rewrite (Hall x (or_introl eq_refl) E).
    rewrite Hu. simpl. exact IH'.
  - destruct (negb _); now rewrite IH'.
Qed.

Lemma set_quantity_keeps_ids (db : Db float) (c : CartItem.t) (q : Z) :
  map line_key (cart_items (set_quantity c q db))
  = map line_key (cart_items db).
Proof.
  unfold set_quantity; simpl. rewrite map_map. apply map_ext.
  intros x. now destruct (CartItem.id x =? CartItem.id c).
Qed.

Lemma delete_cart_item_others
      (db : Db float) (u : User.t) (pid : Z) (c : CartItem.t) :
  NoDup (map CartItem.id (cart_items db)) ->
  find_cart_item db u pid = Some c ->
  other_carts (delete_cart_item c db) u = other_carts db u.
Proof.
  intros Hpk Hc. unfold find_cart_item in Hc.
  apply find_some in Hc as [Hin Hk].
  apply andb_true_iff in Hk as [Hu _].
  unfold other_carts, delete_cart_item; simpl.
  rewrite filter_comm. apply filter_all.
  intros x Hx. apply filter_In in Hx as [Hx Hother].
  apply negb_true_iff. destruct (CartItem.id x =? CartItem.id c) eqn:E;
    [|reflexivity].
  apply Z.eqb_eq in E.
  rewrite (NoDup_map_eq CartItem.id _ x c Hpk Hx Hin E), Hu in Hother.
  discriminate.
Qed.

Lemma update_field_found (u : User.t) (st : Db float) (key value : string) :
  update_field u st (key, value) = st
  \/ exists item pid n,
       find_cart_item st u pid = Some item
       /\ py_int value = Some n
       /\ update_field u st (key, value)
          = set_quantity item (Z.min (Z.max 1 n) 100) st.
Proof.
  unfold update_field.
  destruct (Py.startswith key "quantity_"); [|now left].
  destruct (Py.index (Py.split "_" key) 1) as [id|]; simpl; [|now left].
  destruct (py_int id) as [pid|]; simpl; [|now left].
  destruct (py_int value) as [n|]; simpl; [|now left].
  destruct (find_cart_item st u pid) as [item|] eqn:Hitem; [|now left].
  right. now exists item, pid, n.
Qed.

Lemma line_key_ids (l l' : list CartItem.t) :
  map line_key l = map line_key l' -> map CartItem.id l = map CartItem.id l'.
Proof.
  intros Hk.
  assert (Hid : forall m, map CartItem.id m
                          = map (fun k : Z * Z * Z => fst (fst k))
                                (map line_key m))
    by (intros m; rewrite map_map; now apply map_ext).
  now rewrite (Hid l), (Hid l'), Hk.
Qed.

Lemma update_fields_others (u : User.t) (fields : list (string * string)) :
  forall db : Db float,
    map line_key (cart_items (fold_left (update_field u) fields db))
    = map line_key (cart_items db)
    /\ (NoDup (map CartItem.id (cart_items db)) ->
        other_carts (fold_left (update_field u) fields db) u
        = other_carts db u).
Proof.
  induction fields as [|[key value] fs IH]; intros db; cbn [fold_left];
    [now split|].
  destruct (update_field_found u db key value)
    as [->|(item & pid & n & Hitem & _ & ->)]; [now apply IH|].
  destruct (IH (set_quantity item (Z.min (Z.max 1 n) 100) db)) as [Hk Ho].
  rewrite Hk, set_quantity_keeps_ids. split; [reflexivity|].
  intros Hpk. rewrite Ho.
  - now apply set_quantity_others with (pid := pid).
  - now rewrite (line_key_ids _ _ (set_quantity_keeps_ids db item _)).
Qed.

(** X7. The bulk update of the cart page neither adds nor removes a line
    and changes of a line nothing but its quantity: the ids, users and
    products of the lines of the store are the same after it. Cart lines
    having distinct ids, the cart page and [add_to_cart] leave the lines of
    the other users as they were. *)
Theorem cart_touches_own_lines_only
        (pid : Z) (u : User.t) (req : Request) (db : Db float) :
  (method req = POST -> MultiDict.contains "update" (form req) = true ->
   map line_key (cart_items (db_after (cart u req db)))
   = map line_key (cart_items db))
  /\ (NoDup (map CartItem.id (cart_items db)) ->
      other_carts (db_after (cart u req db)) u = other_carts db u
      /\ other_carts (db_after (add_to_cart pid u req db)) u
         = other_carts db u).
Proof.
  assert (Hview : forall db' : Db float,
             db_after match cart_total db' (user_cart db' u) with
                      | Some total =>
                          mkReply (Render "cart.html"
                                     (CartCtx (user_cart db' u) total))
                                  [] db' (session req)
                      | None => mkReply Raised [] db' (session req)
                      end = db')
    by (intros db'; now destruct (cart_total db' _)).
  split.
  - intros Hpost Hupd. unfold cart. rewrite Hpost, Hview.
    unfold cart_post. rewrite Hupd. apply update_fields_others.
  - intros Hpk. split.
    + unfold cart. rewrite Hview. destruct (method req); [reflexivity|].
      unfold cart_post.
      destruct (MultiDict.contains "update" (form req)).
      * now apply update_fields_others.
      * destruct (MultiDict.contains "remove" (form req)); [|reflexivity].
        destruct (bind _ _) as [rid|]; [|reflexivity].
        destruct (find_cart_item db u rid) eqn:Hc; [|reflexivity].
        now apply delete_cart_item_others with (pid := rid).
    + unfold add_to_cart. destruct (get_product db pid); [|reflexivity].
      simpl. destruct (find_cart_item db u pid) as [c|] eqn:Hc.
      * now apply set_quantity_others with (pid := pid).
      * unfold other_carts, add_cart_item; simpl.
        rewrite filter_app. simpl. rewrite Z.eqb_refl. simpl.
        apply app_nil_r.
Qed.

Lemma cart_after (u : User.t) (req : Request) (db : Db float) :
  db_after (cart u req db)
  = match method req with
    | POST => cart_post u req db
    | GET => db
    end.
Proof. unfold cart. now destruct (cart_total _ _). Qed.

(** X8. The removal of a line on the cart page: a value that is not a
    number, or the id of a product the user has no line for, changes
    nothing; otherwise the line found for the product is deleted. Cart
    lines having distinct ids, it is the only line that goes; and with
    one line for a product in the cart, the user has no line for the
    product afterwards. *)
Theorem cart_remove_deletes_line
        (u : User.t) (req : Request) (db : Db float) (v : string) :
  method req = POST ->
  MultiDict.contains "update" (form req) = false ->
  MultiDict.get "remove" (form req) = Some v ->
  let db' := db_after (cart u req db) in
  (py_int v = None -> db' = db)
  /\ forall pid, py_int v = Some pid ->
       (find_cart_item db u pid = None -> db' = db)
       /\ forall line, find_cart_item db u pid = Some line ->
            db' = delete_cart_item line db
            /\ (NoDup (map CartItem.id (cart_items db)) ->
                forall x, In x (cart_items db')
                          <-> In x (cart_items db) /\ x <> line)
            /\ (NoDup (cart_products (user_cart db u)) ->
                find_cart_item db' u pid = None).
Proof.
  intros Hpost Hupd Hrem db'. unfold db'. rewrite cart_after, Hpost.
  unfold cart_post, MultiDict.contains. unfold MultiDict.contains in Hupd.
  rewrite Hupd, Hrem. simpl. split; [now intros ->|].
  intros pid ->. split; [now intros ->|].
  intros line Hline. rewrite Hline. split; [reflexivity|].
  pose proof Hline as Hfound. unfold find_cart_item in Hfound.
  apply find_some in Hfound as [Hin Hk].
  apply andb_true_iff in Hk as [Hu Hp]. split.
  - intros Hpk x. unfold delete_cart_item; simpl. rewrite filter_In.
    split; intros [Hx Hne]; (split; [assumption|]).
    + intros ->. now rewrite Z.eqb_refl in Hne.
    + apply negb_true_iff, Z.eqb_neq. intros Hid. apply Hne.
      now apply (NoDup_map_eq CartItem.id (cart_items db)).
  - intros Hone. unfold find_cart_item, delete_cart_item; simpl.
    destruct (find _ _) as [x|] eqn:Hx; [|reflexivity]. exfalso.
    apply find_some in Hx as [Hx Hk'].
    apply filter_In in Hx as [Hx Hne].
    apply andb_true_iff in Hk' as [Hu' Hp'].
    apply Z.eqb_eq in Hp, Hp'.
    assert (x = line).
    { apply (NoDup_map_eq CartItem.product_id (user_cart db u)); auto.
      - unfold user_cart. apply filter_In. now split.
      - unfold user_cart. apply filter_In. now split.
      - congruence. }
    subst x. now rewrite Z.eqb_refl in Hne.
Qed.



Lemma add_times_product (n : nat) (pid : Z) (u : User.t) (req : Request)
      (db : Db float) :
  get_product (add_times n pid u req db) pid = get_product db pid.
Proof.
  induction n as [|n IH]; simpl; [reflexivity|]. rewrite <- IH.
  destruct (cart_views_same_but_cart pid u req (add_times n pid u req db))
    as [_ (_ & _ & Hp & _)].
  unfold get_product. now rewrite Hp.
Qed.

(** X30. [add_to_cart] of a product of the store, [n] times in a row by
    a user who had no line for it, leaves the user with a line of
    quantity [n], capped at 100. *)
Theorem add_to_cart_many_times
        (n : nat) (pid : Z) (u : User.t) (req : Request) (db : Db float) :
  get_product db pid <> None ->
  find_cart_item db u pid = None ->
  (1 <= n)%nat ->
  exists line,
    find_cart_item (add_times n pid u req db) u pid = Some line
    /\ CartItem.quantity line = Z.min (Z.of_nat n) 100.
Proof.
  intros Hp Hnone Hn. induction n as [|n IH]; [lia|].
  assert (Hp' : get_product (add_times n pid u req db) pid <> None)
    by now rewrite add_times_product.
  destruct (add_to_cart_line pid u req (add_times n pid u req db))
    as (_ & Hline).
  destruct (Hline Hp') as (line & Hfound & _ & _ & Hq).
  exists line. split; [exact Hfound|]. rewrite Hq.
  destruct n as [|n].
  - simpl. rewrite Hnone. reflexivity.
  - destruct IH as (old & -> & Hold); [lia|]. rewrite Hold. lia.
Qed.

(** *** Sessions *)

Lemma anonymous_no_user (req : Request) (db : Db float) :
  anonymous req db -> (uid <- session req;; load_user db uid) = None.
Proof.
  unfold anonymous. intros Hanon.
  destruct (session req) as [uid|]; simpl; [now apply Hanon | reflexivity].
Qed.

(** X10. A request without a user to a route behind [@login_required]
    (cart, add to cart, checkout, orders, profile, logout) runs no view: it
    writes nothing and leaves the session as it is, and the reply is the
    redirect to the login page, or a 405 for a POST to a route that takes
    GET only. *)
Theorem anonymous_request_writes_nothing
        (route : Route) (req : Request) (db : Db float) :
  anonymous req db ->
  protected route = true ->
  db_after (dispatch route req db) = db
  /\ session_after (dispatch route req db) = session req
  /\ (response (dispatch route req db) = Redirect "login"
      \/ (method req = POST
          /\ response (dispatch route req db) = Abort 405)).
Proof.
  intros Hanon Hprot. apply anonymous_no_user in Hanon.
  destruct route; try discriminate; simpl;
    unfold get_only, login_required; rewrite ?Hanon;
    destruct (method req) eqn:Hm; rewrite ?Hanon; simpl; auto.
Qed.

Lemma login_required_cases
      (view : User.t -> Request -> Db float -> Reply float)
      (req : Request) (db : Db float) :
  db_after (login_required view req db) = db
  \/ exists u, In u (users db) /\ session req = Some (User.id u)
               /\ login_required view req db = view u req db.
Proof.
  unfold login_required.
  destruct (session req) as [uid|]; simpl; [|now left].
  destruct (load_user db uid) as [u|] eqn:Hu; [|now left].
  right. exists u. unfold load_user in Hu. apply find_some in Hu as [Hin Hid].
  apply Z.eqb_eq in Hid. subst uid. now repeat split.
Qed.

(** X11. A GET request writes nothing to the store, on every route but
    [add_to_cart]. *)
Theorem get_requests_read_only
        (route : Route) (req : Request) (db : Db float) :
  method req = GET ->
  (forall pid, route <> AddToCart pid) ->
  db_after (dispatch route req db) = db.
Proof.
  intros Hget Hroute.
  destruct route; simpl; unfold get_only; rewrite ?Hget;
    try reflexivity;
    try (destruct (login_required_cases
                     (fun u => _) req db) as [Hdb|(u & _ & _ & Heq)];
         [exact Hdb | rewrite Heq]).
  - unfold product. now destruct (get_product db id).
  - destruct (login_required_cases cart req db) as [Hdb|(u & _ & _ & ->)];
      [exact Hdb|]. now rewrite cart_after, Hget.
  - now destruct (Hroute product_id).
  - destruct (login_required_cases checkout req db)
      as [Hdb|(u & _ & _ & ->)]; [exact Hdb|].
    unfold checkout. rewrite Hget. now destruct (cart_total _ _).
  - destruct (login_required_cases orders_view req db)
      as [Hdb|(u & _ & _ & ->)]; [exact Hdb | reflexivity].
  - apply login_after.
  - unfold register. now rewrite Hget.
  - destruct (login_required_cases profile req db)
      as [Hdb|(u & _ & _ & ->)]; [exact Hdb|].
    unfold profile. now rewrite Hget.
  - destruct (login_required_cases logout req db)
      as [Hdb|(u & _ & _ & ->)]; [exact Hdb | reflexivity].
Qed.

(** X12. [login] never writes to the store. It opens a session only for
    a user of the store with the email of the form, whose stored hash
    checks against the password of the form. With an email of no user, or
    a password the hash rejects, the reply is the login page with the
    flash "Invalid credentials" and the session is as it was; a POST
    without email or password is a 400. *)
Theorem login_checks_password (req : Request) (db : Db float) :
  db_after (login req db) = db
  /\ (forall uid,
        session_after (login req db) = Some uid ->
        session req = Some uid
        \/ exists email pw user,
             MultiDict.get "email" (form req) = Some email
             /\ MultiDict.get "password" (form req) = Some pw
             /\ In user (users db) /\ User.email user = email
             /\ User.id user = uid
             /\ check_password_hash (User.password user) pw = true)
  /\ (forall email pw,
        method req = POST ->
        MultiDict.get "email" (form req) = Some email ->
        MultiDict.get "password" (form req) = Some pw ->
        (forall user, find_user db email = Some user ->
                      check_password_hash (User.password user) pw = false) ->
        login req db
        = mkReply (Render "login.html" NoCtx) ["Invalid credentials"]
                  db (session req))
  /\ (method req = POST ->
      MultiDict.get "email" (form req) = None
      \/ MultiDict.get "password" (form req) = None ->
      login req db = mkReply (Abort 400) [] db (session req)).
Proof.
  split; [apply login_after|]. unfold login. split; [|split].
  - intros uid. destruct (method req); [now left|].
    destruct (MultiDict.get "email" (form req)) as [email|]; simpl;
      [|now left].
    destruct (MultiDict.get "password" (form req)) as [pw|]; simpl;
      [|now left].
    destruct (find_user db email) as [user|] eqn:Hu; [|now left].
    destruct (check_password_hash (User.password user) pw) eqn:Hck;
      [|now left].
    simpl. intros Huid. injection Huid as <-. right.
    unfold find_user in Hu. apply find_some in Hu as [Hin He].
    apply String.eqb_eq in He. exists email, pw, user. now repeat split.
  - intros email pw -> -> -> Hbad. simpl.
    destruct (find_user db email) as [user|]; [|reflexivity].
    now rewrite (Hbad user eq_refl).
  - intros -> [->| Hpw]; [reflexivity|].
    destruct (MultiDict.get "email" (form req)); simpl; [|reflexivity].
    now rewrite Hpw.
Qed.

(** *** What a request writes *)

(** The store after a request is the store before it, or the store after
    one of the five views that write, run for a user of the store. *)
Lemma dispatch_cases (route : Route) (req : Request) (db : Db float) :
  db_after (dispatch route req db) = db
  \/ db_after (dispatch route req db) = db_after (register req db)
  \/ exists u,
       In u (users db)
       /\ (db_after (dispatch route req db) = db_after (cart u req db)
           \/ (exists pid, db_after (dispatch route req db)
                           = db_after (add_to_cart pid u req db))
           \/ db_after (dispatch route req db) = db_after (checkout u req db)
           \/ db_after (dispatch route req db) = db_after (profile u req db)).
Proof.
  destruct route; simpl; unfold get_only.
  - left. now destruct (method req).
  - left. destruct (method req); [|reflexivity].
    unfold product. now destruct (get_product db id).
  - destruct (login_required_cases cart req db) as [Hdb|(u & Hu & _ & ->)];
      [now left|]. right. right. exists u. auto.
  - destruct (method req); [|now left].
    destruct (login_required_cases (add_to_cart product_id) req db)
      as [Hdb|(u & Hu & _ & ->)]; [now left|].
    right. right. exists u. split; [assumption|]. right. left.
    now exists product_id.
  - destruct (login_required_cases checkout req db)
      as [Hdb|(u & Hu & _ & ->)]; [now left|].
    right. right. exists u. auto.
  - left. destruct (method req); [|reflexivity].
    now destruct (login_required_cases orders_view req db)
      as [Hdb|(u & Hu & _ & ->)].
  - left. apply login_after.
  - right. now left.
  - destruct (login_required_cases profile req db)
      as [Hdb|(u & Hu & _ & ->)]; [now left|].
    right. right. exists u. auto 6.
  - left. destruct (method req); [|reflexivity].
    now destruct (login_required_cases logout req db)
      as [Hdb|(u & Hu & _ & ->)].
Qed.

(** The cart table after the cart page. *)
Lemma cart_post_lines (u : User.t) (req : Request) (db : Db float) :
  map line_key (cart_items (cart_post u req db))
  = map line_key (cart_items db)
  \/ exists line, cart_items (cart_post u req db)
                  = filter (fun c => negb (CartItem.id c =? CartItem.id line))
                           (cart_items db).
Proof.
  unfold cart_post.
  destruct (MultiDict.contains "update" (form req)).
  - left. apply update_fields_others.
  - destruct (MultiDict.contains "remove" (form req)); [|now left].
    destruct (bind _ _) as [pid|]; [|now left].
    destruct (find_cart_item db u pid) as [line|]; [|now left].
    right. now exists line.
Qed.

(** The rows of a register and of a profile update. *)
Lemma register_users (req : Request) (db : Db float) :
  db_after (register req db) = db
  \/ exists user,
       db_after (register req db) = add_user user db
       /\ User.id user = next_id (map User.id (users db))
       /\ find_user db (User.email user) = None.
Proof.
  unfold register. destruct (method req); [now left|].
  destruct (bind _ _) as [[[[email password] name] address]|]; [|now left].
  destruct (find_user db email) eqn:Hf; [now left|].
  right. eexists. split; [reflexivity|]. now split.
Qed.

Lemma set_profile_keeps (u : User.t) (name address : string) (db : Db float) :
  map User.id (users (set_profile u name address db)) = map User.id (users db)
  /\ map User.email (users (set_profile u name address db))
     = map User.email (users db)
  /\ map User.password (users (set_profile u name address db))
     = map User.password (users db).
Proof.
  unfold set_profile; simpl. rewrite !map_map.
  repeat split; apply map_ext; intros x;
    now destruct (User.id x =? User.id u).
Qed.

Lemma place_lines_item_ids (oid : Z) (cart : list CartItem.t) :
  forall st st' : Db float,
    foldM (place_line oid) cart st = Some st' ->
    NoDup (map (@OrderItem.id float) (order_items st)) ->
    NoDup (map (@OrderItem.id float) (order_items st')).
Proof.
  induction cart as [|it cart IH]; intros st st' Hrun Hnd.
  - simpl in Hrun. now injection Hrun as <-.
  - loop_step Hrun Hstep st1. apply (IH _ _ Hrun).
    apply place_line_inv in Hstep as (p & _ & _ & ->). simpl.
    rewrite map_app. simpl. apply NoDup_snoc; [assumption|].
    apply next_id_fresh.
Qed.

Lemma restocked_ids (cart : list CartItem.t) (ps ps' : list (Product.t float)) :
  Forall2 (restocked cart) ps ps' ->
  map (@Product.id float) ps' = map (@Product.id float) ps.
Proof.
  induction 1 as [|p p' ps ps' [Hp _] _ IH]; simpl; [reflexivity|].
  rewrite IH, Hp. reflexivity.
Qed.

Lemma find_user_none_email (db : Db float) (email : string) :
  find_user db email = None -> ~ In email (map User.email (users db)).
Proof.
  unfold find_user. intros Hf Hin.
  apply in_map_iff in Hin as (x & Hx & Hin).
  apply find_none with (x := x) in Hf; [|assumption].
  rewrite Hx, String.eqb_refl in Hf. discriminate.
Qed.

(** The users of the store after a request: the same, the same with one
    more, or the same with other names and addresses. *)
Lemma dispatch_users (route : Route) (req : Request) (db : Db float) :
  users (db_after (dispatch route req db)) = users db
  \/ (exists user,
        users (db_after (dispatch route req db)) = (users db ++ [user])%list
        /\ User.id user = next_id (map User.id (users db))
        /\ ~ In (User.email user) (map User.email (users db)))
  \/ (map User.id (users (db_after (dispatch route req db)))
      = map User.id (users db)
      /\ map User.email (users (db_after (dispatch route req db)))
         = map User.email (users db)
      /\ map User.password (users (db_after (dispatch route req db)))
         = map User.password (users db)).
Proof.
  destruct (dispatch_cases route req db)
    as [->|[->|(u & _ & [->|[(pid & ->)|[->| ->]]])]].
  - now left.
  - destruct (register_users req db) as [->|(user & -> & Hid & Hf)];
      [now left|].
    right. left. exists user. split; [reflexivity|]. split; [assumption|].
    now apply find_user_none_email.
  - left. apply (cart_writes_cart_only_users 0 u req db).
  - left. apply (cart_writes_cart_only_users pid u req db).
  - left. destruct (checkout_or_nothing u req db) as [Hplaced| ->];
      [|reflexivity].
    destruct (checkout_placed_inv _ _ _ Hplaced) as (t & _ & _ & _ & Hrun).
    now destruct (place_lines_frame _ _ _ _ Hrun) as (-> & _).
  - destruct (profile_after u req db) as [->|(n & a & ->)]; [now left|].
    right. right. apply set_profile_keeps.
Qed.

Lemma add_to_cart_lines (pid : Z) (u : User.t) (req : Request) (db : Db float) :
  map line_key (cart_items (db_after (add_to_cart pid u req db)))
  = map line_key (cart_items db)
  \/ (cart_items (db_after (add_to_cart pid u req db))
      = (cart_items db
           ++ [CartItem.mk (next_id (map CartItem.id (cart_items db)))
                           (User.id u) pid 1])%list
      /\ In pid (map (@Product.id float) (products db))
      /\ find_cart_item db u pid = None).
Proof.
  unfold add_to_cart. destruct (get_product db pid) as [p|] eqn:Hp;
    [|now left]. simpl.
  destruct (find_cart_item db u pid) as [c|] eqn:Hc.
  - left. apply set_quantity_keeps_ids.
  - right. split; [reflexivity|]. split; [|reflexivity].
    pose proof (get_product_id _ _ _ Hp) as Hid.
    unfold get_product in Hp. apply find_some in Hp as [Hin _].
    rewrite <- Hid. now apply in_map.
Qed.

(** The rows a placed checkout writes. *)
Lemma checkout_rows (u : User.t) (req : Request) (db : Db float) :
  placed (checkout u req db) ->
  let db' := db_after (checkout u req db) in
  users db' = users db
  /\ categories db' = categories db
  /\ Forall2 (restocked (user_cart db u)) (products db) (products db')
  /\ cart_items db'
     = filter (fun c => negb (deleted (user_cart db u) c)) (cart_items db)
  /\ (NoDup (map (@OrderItem.id float) (order_items db)) ->
      NoDup (map (@OrderItem.id float) (order_items db')))
  /\ exists order new,
       orders db' = (orders db ++ [order])%list
       /\ Order.id order = next_id (map (@Order.id float) (orders db))
       /\ Order.user_id order = User.id u
       /\ order_items db' = (order_items db ++ new)%list
       /\ Forall2 (records db (Order.id order)) (user_cart db u) new.
Proof.
  intros Hplaced db'.
  destruct (checkout_placed_inv _ _ _ Hplaced) as (total & _ & _ & _ & Hrun).
  fold db' in Hrun.
  destruct (place_lines_frame _ _ _ _ Hrun) as (Hu & Hc & Ho).
  pose proof (place_lines_cart _ _ _ _ Hrun) as Hcart.
  destruct (place_lines_items _ _ _ _ Hrun) as (new & Hitems & Hrec).
  pose proof (place_lines_products _ _ _ _ Hrun) as Hprod.
  pose proof (place_lines_item_ids _ _ _ _ Hrun) as Hids.
  simpl in Hu, Hc, Ho, Hcart, Hitems, Hprod, Hids.
  repeat (split; [assumption|]).
  eexists. exists new. split; [exact Ho|]. now repeat split.
Qed.

(** *** Invariants of the store *)

Lemma NoDup_map_filter {A B} (h : A -> B) (f : A -> bool) (l : list A) :
  NoDup (map h l) -> NoDup (map h (filter f l)).
Proof.
  induction l as [|a l IH]; simpl; intros Hnd; [constructor|].
  inversion Hnd as [|? ? Ha Hl]; subst.
  destruct (f a); simpl; [|now apply IH].
  constructor; [|now apply IH].
  intros Hin. apply Ha. apply in_map_iff in Hin as (x & Hx & Hin).
  apply filter_In in Hin as [Hin _]. rewrite <- Hx. now apply in_map.
Qed.

Lemma line_key_filter_map {B} (F : Z * Z * Z -> bool) (G : Z * Z * Z -> B)
      (l : list CartItem.t) :
  forall l', map line_key l = map line_key l' ->
    map (fun c => G (line_key c)) (filter (fun c => F (line_key c)) l)
    = map (fun c => G (line_key c)) (filter (fun c => F (line_key c)) l').
Proof.
  induction l as [|a l IH]; intros [|a' l'] Hk; simpl in *;
    try discriminate; [reflexivity|].
  assert (Ha : line_key a = line_key a')
    by (unfold line_key; inversion Hk; congruence).
  assert (Hl : map line_key l = map line_key l') by (now inversion Hk).
  rewrite Ha.
  destruct (F (line_key a')); simpl; rewrite ?Ha; now rewrite (IH l' Hl).
Qed.

Lemma line_key_in (l l' : list CartItem.t) (c' : CartItem.t) :
  map line_key l = map line_key l' -> In c' l' ->
  exists c, In c l /\ line_key c = line_key c'.
Proof.
  intros Hk Hin. apply (in_map line_key) in Hin. rewrite <- Hk in Hin.
  apply in_map_iff in Hin as (c & Hc & Hin). now exists c.
Qed.

Ltac by_writer route req db u Hu pid :=
  destruct (dispatch_cases route req db)
    as [->|[->|(u & Hu & [->|[(pid & ->)|[->| ->]]])]].

Lemma dispatch_emails_unique (route : Route) (req : Request) (db : Db float) :
  emails_unique db -> emails_unique (db_after (dispatch route req db)).
Proof.
  unfold emails_unique. intros Hnd.
  destruct (dispatch_users route req db)
    as [->|[(user & -> & _ & Hfresh)|(_ & -> & _)]]; try assumption.
  rewrite map_app. simpl. now apply NoDup_snoc.
Qed.

(** X13. No request makes two accounts share an email: when the emails of
    the users of the store are distinct, they are after any request to any
    route. *)
Theorem emails_stay_unique (route : Route) (req : Request) (db : Db float) :
  emails_unique db -> emails_unique (db_after (dispatch route req db)).
Proof. exact (dispatch_emails_unique route req db). Qed.

Lemma cart_post_key_ids (u : User.t) (req : Request) (db : Db float) :
  NoDup (map CartItem.id (cart_items db)) ->
  NoDup (map CartItem.id (cart_items (cart_post u req db))).
Proof.
  intros Hnd. destruct (cart_post_lines u req db) as [Hk|(line & ->)].
  - now rewrite (line_key_ids _ _ Hk).
  - now apply NoDup_map_filter.
Qed.

Lemma keys_ok_cart_table (db db' : Db float) :
  same_but_cart db db' -> keys_ok db ->
  NoDup (map CartItem.id (cart_items db')) -> keys_ok db'.
Proof.
  intros (Hu & Hc & Hp & Ho & Hi) (Ku & Kc & Kp & Ko & Ki & _) Hcart.
  unfold keys_ok. now rewrite Hu, Hc, Hp, Ho, Hi.
Qed.

Lemma dispatch_keys_ok (route : Route) (req : Request) (db : Db float) :
  keys_ok db -> keys_ok (db_after (dispatch route req db)).
Proof.
  intros Hok. pose proof Hok as (Ku & Kc & Kp & Ko & Ki & Kl).
  by_writer route req db u Hu pid.
  - assumption.
  - destruct (register_users req db) as [->|(user & -> & Hid & _)];
      [assumption|].
    unfold keys_ok, add_user; simpl. split; [|now repeat split].
    rewrite map_app. simpl. apply NoDup_snoc; [assumption|].
    rewrite Hid. apply next_id_fresh.
  - apply (keys_ok_cart_table db); [apply (cart_views_same_but_cart 0)
                                   | assumption |].
    rewrite cart_after. destruct (method req); [assumption|].
    now apply cart_post_key_ids.
  - apply (keys_ok_cart_table db); [apply (cart_views_same_but_cart pid)
                                   | assumption |].
    destruct (add_to_cart_lines pid u req db) as [Hk|(-> & _)].
    + now rewrite (line_key_ids _ _ Hk).
    + rewrite map_app. simpl. apply NoDup_snoc; [assumption|].
      apply next_id_fresh.
  - destruct (checkout_or_nothing u req db) as [Hplaced| ->]; [|assumption].
    destruct (checkout_rows u req db Hplaced)
      as (Hus & Hcs & Hps & Hls & Hids & order & new & Hos & Hoid & _).
    unfold keys_ok. rewrite Hus, Hcs, Hls, Hos, (restocked_ids _ _ _ Hps).
    repeat (split; [assumption|]). split; [|split].
    + rewrite map_app. simpl. apply NoDup_snoc; [assumption|].
      rewrite Hoid. apply next_id_fresh.
    + now apply Hids.
    + now apply NoDup_map_filter.
  - destruct (profile_after u req db) as [->|(n & a & ->)]; [assumption|].
    destruct (set_profile_keeps u n a db) as (Hids & _).
    unfold keys_ok. rewrite Hids. now repeat split.
Qed.

(** X14. The ids the requests give to new rows are new: when the ids of
    the rows of every table are distinct, they are after any request to
    any route. *)
Theorem keys_stay_distinct (route : Route) (req : Request) (db : Db float) :
  keys_ok db -> keys_ok (db_after (dispatch route req db)).
Proof. exact (dispatch_keys_ok route req db). Qed.

Lemma refs_ok_cart_table (db db' : Db float) :
  same_but_cart db db' -> refs_ok db ->
  (forall c, In c (cart_items db') ->
     In (CartItem.user_id c) (map User.id (users db))
     /\ In (CartItem.product_id c) (map (@Product.id float) (products db))) ->
  refs_ok db'.
Proof.
  intros (Hu & Hc & Hp & Ho & Hi) (_ & Ro & Ri) Hcart.
  unfold refs_ok. now rewrite Hu, Hp, Ho, Hi.
Qed.

Lemma refs_ok_lines (db : Db float) (l' : list CartItem.t) :
  refs_ok db ->
  (map line_key (cart_items db) = map line_key l'
   \/ exists f, l' = filter f (cart_items db)) ->
  forall c, In c l' ->
    In (CartItem.user_id c) (map User.id (users db))
    /\ In (CartItem.product_id c) (map (@Product.id float) (products db)).
Proof.
  intros (Rc & _) [Hk|(f & ->)] c Hin.
  - destruct (line_key_in _ _ c Hk Hin) as (c0 & Hc0 & Hkey).
    unfold line_key in Hkey. injection Hkey as _ Hu Hp.
    rewrite <- Hu, <- Hp. now apply Rc.
  - apply filter_In in Hin as [Hin _]. now apply Rc.
Qed.

Lemma dispatch_refs_ok (route : Route) (req : Request) (db : Db float) :
  refs_ok db -> refs_ok (db_after (dispatch route req db)).
Proof.
  intros Hok. pose proof Hok as (Rc & Ro & Ri).
  by_writer route req db u Hu pid.
  - assumption.
  - destruct (register_users req db) as [->|(user & -> & _)]; [assumption|].
    unfold refs_ok, add_user; simpl. rewrite map_app. split; [|split].
    + intros c Hc. destruct (Rc c Hc).
      split; [apply in_or_app; now left | assumption].
    + intros o Ho. apply in_or_app. left. now apply Ro.
    + intros oi Hoi. now apply Ri.
  - apply (refs_ok_cart_table db); [apply (cart_views_same_but_cart 0)
                                   | assumption |].
    apply refs_ok_lines; [assumption|].
    rewrite cart_after. destruct (method req); [now left|].
    destruct (cart_post_lines u req db) as [Hk|(line & ->)];
      [now left | right; now eexists].
  - apply (refs_ok_cart_table db); [apply (cart_views_same_but_cart pid)
                                   | assumption |].
    destruct (add_to_cart_lines pid u req db) as [Hk|(-> & Hp & _)].
    + apply refs_ok_lines; [assumption | now left].
    + intros c Hc. apply in_app_or in Hc as [Hc|[<-|[]]]; [now apply Rc|].
      simpl. split; [now apply in_map | assumption].
  - destruct (checkout_or_nothing u req db) as [Hplaced| ->]; [|assumption].
    destruct (checkout_rows u req db Hplaced)
      as (Hus & Hcs & Hps & Hls & _ & order & new & Hos & _ & Hou & His & Hrec).
    unfold refs_ok. rewrite Hus, Hls, Hos, His, (restocked_ids _ _ _ Hps).
    split; [|split].
    + intros c Hc. apply filter_In in Hc as [Hc _]. now apply Rc.
    + intros o Ho. apply in_app_or in Ho as [Ho|[<-|[]]]; [now apply Ro|].
      rewrite Hou. now apply in_map.
    + intros oi Hoi. rewrite map_app.
      apply in_app_or in Hoi as [Hoi|Hoi].
      * split; [apply in_or_app; left|]; now apply Ri.
      * destruct (Forall2_In_right _ _ _ Hrec oi Hoi)
          as (it & Hit & Hoid & Hpid & _ & p & Hp & _).
        split.
        -- apply in_or_app. right. simpl. now left.
        -- rewrite Hpid. apply filter_In in Hit as [Hit _].
           now apply Rc.
  - destruct (profile_after u req db) as [->|(n & a & ->)]; [assumption|].
    destruct (set_profile_keeps u n a db) as (Hids & _).
    unfold refs_ok. rewrite Hids.
    split; [exact Rc | split; [exact Ro | exact Ri]].
Qed.

(** X15. No request leaves a dangling reference: when every cart line has
    its user and its product, every order its user and every order item
    its order and its product, it is so after any request to any route. *)
Theorem references_stay_valid (route : Route) (req : Request) (db : Db float) :
  refs_ok db -> refs_ok (db_after (dispatch route req db)).
Proof. exact (dispatch_refs_ok route req db). Qed.

Lemma line_key_user_products (l l' : list CartItem.t) (uid : Z) :
  map line_key l = map line_key l' ->
  map CartItem.product_id (filter (fun c => CartItem.user_id c =? uid) l')
  = map CartItem.product_id (filter (fun c => CartItem.user_id c =? uid) l).
Proof.
  intros Hk. symmetry.
  exact (line_key_filter_map (fun k => snd (fst k) =? uid) snd l l' Hk).
Qed.

Lemma one_line_filter (db : Db float) (f : CartItem.t -> bool) (uid : Z) :
  one_line db ->
  NoDup (map CartItem.product_id
             (filter (fun c => CartItem.user_id c =? uid)
                     (filter f (cart_items db)))).
Proof.
  intros Hone. rewrite filter_comm. apply NoDup_map_filter, Hone.
Qed.

Lemma dispatch_one_line (route : Route) (req : Request) (db : Db float) :
  one_line db -> one_line (db_after (dispatch route req db)).
Proof.
  intros Hone.
  by_writer route req db u Hu pid.
  - assumption.
  - destruct (register_users req db) as [->|(user & -> & _)]; assumption.
  - rewrite cart_after. destruct (method req); [assumption|].
    intros uid. destruct (cart_post_lines u req db) as [Hk|(line & ->)].
    + rewrite (line_key_user_products _ _ uid (eq_sym Hk)). apply Hone.
    + now apply one_line_filter.
  - intros uid.
    destruct (add_to_cart_lines pid u req db) as [Hk|(-> & _ & Hnone)].
    + rewrite (line_key_user_products _ _ uid (eq_sym Hk)). apply Hone.
    + rewrite filter_app, map_app. simpl.
      destruct (User.id u =? uid) eqn:E; simpl.
      * apply NoDup_snoc; [apply Hone|].
        intros Hin. apply in_map_iff in Hin as (c & Hp & Hc).
        apply filter_In in Hc as [Hc Hcu].
        unfold find_cart_item in Hnone.
        apply find_none with (x := c) in Hnone; [|assumption].
        apply Z.eqb_eq in E, Hcu. rewrite Hp, Hcu, <- E in Hnone.
        now rewrite !Z.eqb_refl in Hnone.
      * rewrite app_nil_r. apply Hone.
  - destruct (checkout_or_nothing u req db) as [Hplaced| ->]; [|assumption].
    destruct (checkout_rows u req db Hplaced) as (_ & _ & _ & Hls & _).
    intros uid. rewrite Hls. now apply one_line_filter.
  - destruct (profile_after u req db) as [->|(n & a & ->)]; assumption.
Qed.

(** X16. No request gives a user a second cart line for a product: when
    every user has at most one line for a product, it is so after any
    request to any route. *)
Theorem carts_keep_one_line (route : Route) (req : Request) (db : Db float) :
  one_line db -> one_line (db_after (dispatch route req db)).
Proof. exact (dispatch_one_line route req db). Qed.

Lemma sold_from_refl (p : Product.t float) :
  0 <= Product.stock p -> sold_from p p.
Proof. intros Hp. split; [now destruct p | lia]. Qed.

Lemma sold_from_trans (p q r : Product.t float) :
  sold_from p q -> sold_from q r -> sold_from p r.
Proof.
  intros [Hq Hq'] [Hr Hr']. split; [|lia].
  rewrite Hr, Hq. reflexivity.
Qed.

Lemma Forall2_trans {A} (R : A -> A -> Prop) :
  (forall a b c, R a b -> R b c -> R a c) ->
  forall l1 l2 l3, Forall2 R l1 l2 -> Forall2 R l2 l3 -> Forall2 R l1 l3.
Proof.
  intros HR l1 l2 l3 H12. revert l3.
  induction H12 as [|a b l1 l2 Hab _ IH]; intros l3 H23;
    inversion H23; subst; constructor; eauto.
Qed.

Lemma Forall2_map_self {A} (R : A -> A -> Prop) (g : A -> A) (l : list A) :
  (forall x, In x l -> R x (g x)) -> Forall2 R l (map g l).
Proof.
  induction l as [|a l IH]; simpl; intros HR; constructor.
  - apply HR. now left.
  - apply IH. intros x Hx. apply HR. now right.
Qed.

Lemma sold_from_stock_ok (ps ps' : list (Product.t float)) :
  Forall2 sold_from ps ps' ->
  Forall (fun p => 0 <= Product.stock p) ps'
  /\ map (@Product.id float) ps' = map (@Product.id float) ps.
Proof.
  induction 1 as [|p p' ps ps' [Hp Hb] _ [IH1 IH2]]; simpl.
  - now split.
  - split; [constructor; [lia | assumption]|].
    rewrite IH2, Hp. reflexivity.
Qed.

Lemma sold_from_same (db : Db float) :
  stock_ok db -> Forall2 sold_from (products db) (products db).
Proof.
  unfold stock_ok. intros Hok.
  induction Hok; constructor; auto using sold_from_refl.
Qed.

Lemma place_lines_sold (oid : Z) (cart : list CartItem.t) :
  forall st st' : Db float,
    foldM (place_line oid) cart st = Some st' ->
    (forall it, In it cart -> 0 <= CartItem.quantity it) ->
    stock_ok st ->
    NoDup (map (@Product.id float) (products st)) ->
    Forall2 sold_from (products st) (products st').
Proof.
  induction cart as [|it cart IH]; intros st st' Hrun Hq Hok Hpk.
  - simpl in Hrun. injection Hrun as <-. now apply sold_from_same.
  - loop_step Hrun Hstep st1.
    assert (Hstep1 : Forall2 sold_from (products st) (products st1)).
    { apply place_line_inv in Hstep as (p & Hp & _ & ->). simpl.
      apply Forall2_map_self. intros x Hx.
      unfold stock_ok in Hok. rewrite Forall_forall in Hok.
      destruct (Product.id x =? Product.id p) eqn:E;
        [|now apply sold_from_refl, Hok].
      apply Z.eqb_eq in E.
      unfold product_of, get_product in Hp. apply find_some in Hp as [Hin _].
      rewrite (NoDup_map_eq (@Product.id float) _ x p Hpk Hx Hin E).
      assert (0 <= CartItem.quantity it) by (apply Hq; now left).
      assert (0 <= Product.stock p) by now apply Hok.
      split; simpl; [reflexivity | lia]. }
    destruct (sold_from_stock_ok _ _ Hstep1) as [Hok1 Hids].
    eapply Forall2_trans; [exact sold_from_trans | exact Hstep1 |].
    apply (IH st1 st' Hrun); [intros x Hx; apply Hq; now right | exact Hok1 |].
    now rewrite Hids.
Qed.

Lemma dispatch_sold_from (route : Route) (req : Request) (db : Db float) :
  cart_ok db ->
  stock_ok db ->
  NoDup (map (@Product.id float) (products db)) ->
  Forall2 sold_from (products db) (products (db_after (dispatch route req db))).
Proof.
  intros Hcart Hok Hpk.
  pose proof (sold_from_same db Hok) as Hsame.
  by_writer route req db u Hu pid.
  - assumption.
  - destruct (register_users req db) as [->|(user & -> & _)]; assumption.
  - destruct (cart_views_same_but_cart 0 u req db) as [(_ & _ & -> & _) _].
    assumption.
  - destruct (cart_views_same_but_cart pid u req db) as [_ (_ & _ & -> & _)].
    assumption.
  - destruct (checkout_or_nothing u req db) as [Hplaced| ->]; [|assumption].
    destruct (checkout_placed_inv _ _ _ Hplaced) as (t & _ & _ & _ & Hrun).
    apply (place_lines_sold _ _ _ _ Hrun); try assumption.
    intros it Hit. apply filter_In in Hit as [Hit _].
    unfold cart_ok in Hcart. rewrite Forall_forall in Hcart.
    specialize (Hcart it Hit). lia.
  - destruct (profile_after u req db) as [->|(n & a & ->)]; assumption.
Qed.

(** X17. No request changes a product but in its stock, and the stock of a
    product never goes up nor below 0: when the quantities of the cart are
    in [1,100], no stock is negative and the products have distinct ids,
    every product row after a request is the row before it with a stock
    between 0 and the stock before. *)
Theorem stock_only_goes_down (route : Route) (req : Request) (db : Db float) :
  cart_ok db ->
  stock_ok db ->
  NoDup (map (@Product.id float) (products db)) ->
  Forall2 sold_from (products db) (products (db_after (dispatch route req db))).
Proof. exact (dispatch_sold_from route req db). Qed.

(** *** Order history and profile *)

Lemma insert_by_perm {A} (leb : A -> A -> bool) (x : A) (l : list A) :
  Permutation (insert_by leb x l) (x :: l).
Proof.
  induction l as [|y l IH]; simpl; [reflexivity|].
  destruct (leb x y); [reflexivity|].
  rewrite IH. apply perm_swap.
Qed.

Lemma order_by_perm {A} (leb : A -> A -> bool) (l : list A) :
  Permutation (order_by leb l) l.
Proof.
  unfold order_by. induction l as [|x l IH]; simpl; [reflexivity|].
  rewrite insert_by_perm. now constructor.
Qed.

Lemma Sorted_weaken {A} (R R' : A -> A -> Prop) (l : list A) :
  (forall a b, R a b -> R' a b) -> Sorted R l -> Sorted R' l.
Proof.
  intros HR. induction 1 as [|a l _ IH Hhd]; constructor; [assumption|].
  destruct Hhd; constructor. now apply HR.
Qed.

(** X18. The orders page lists the orders of the user and no other: all
    of them, each once, the latest first; it writes nothing. *)
Theorem orders_lists_own_orders (u : User.t) (req : Request) (db : Db float) :
  exists listed,
    orders_view u req db
    = mkReply (Render "orders.html" (OrdersCtx listed)) [] db (session req)
    /\ Permutation listed
         (filter (fun o => Order.user_id o =? User.id u) (orders db))
    /\ (forall o, In o listed
                  <-> In o (orders db) /\ Order.user_id o = User.id u)
    /\ Sorted (fun a b => Order.date b <= Order.date a) listed.
Proof.
  eexists. split; [reflexivity|]. split; [apply order_by_perm|]. split.
  - intros o. split.
    + intros Hin. apply order_by_in, filter_In in Hin as [Hin Hu].
      now apply Z.eqb_eq in Hu.
    + intros [Hin Hu].
      eapply Permutation_in; [symmetry; apply order_by_perm|].
      apply filter_In. split; [assumption|]. now apply Z.eqb_eq.
  - apply Sorted_weaken with (R := fun a b => date_desc a b = true).
    + intros a b. unfold date_desc. apply Z.leb_le.
    + apply order_by_sorted. intros a b. unfold date_desc.
      rewrite !Z.leb_le. lia.
Qed.

(** X19. The order a checkout places is on the orders page of the user
    from then on, with the total charged; the orders page of any other
    user is the same as before the checkout. *)
Theorem placed_order_in_history
        (u : User.t) (req : Request) (db : Db float) :
  placed (checkout u req db) ->
  let db' := db_after (checkout u req db) in
  exists order,
    orders db' = (orders db ++ [order])%list
    /\ Order.user_id order = User.id u
    /\ Order.date order = now req
    /\ (forall page listed,
          response (orders_view u page db')
          = Render "orders.html" (OrdersCtx listed) ->
          In order listed)
    /\ (forall v page,
          User.id v <> User.id u ->
          response (orders_view v page db')
          = response (orders_view v page db)).
Proof.
  intros Hplaced db'.
  destruct (checkout_placed_inv _ _ _ Hplaced) as (total & _ & _ & _ & Hrun).
  fold db' in Hrun.
  destruct (place_lines_frame _ _ _ _ Hrun) as (_ & _ & Ho).
  simpl in Ho. eexists. split; [exact Ho|].
  split; [reflexivity|]. split; [reflexivity|]. split.
  - intros page listed Hresp. unfold orders_view in Hresp. simpl in Hresp.
    injection Hresp as <-.
    eapply Permutation_in; [symmetry; apply order_by_perm|].
    apply filter_In. rewrite Ho. split.
    + apply in_or_app. right. now left.
    + simpl. apply Z.eqb_refl.
  - intros v page Hv. unfold orders_view. simpl. rewrite Ho, filter_app.
    simpl. apply Z.eqb_neq in Hv. rewrite Z.eqb_sym, Hv.
    now rewrite app_nil_r.
Qed.

Lemma find_user_set_profile
      (u : User.t) (name address email : string) (db : Db float) :
  find_user (set_profile u name address db) email
  = option_map
      (fun x => if User.id x =? User.id u
                then User.mk (User.id x) (User.email x) (User.password x)
                             name address
                else x)
      (find_user db email).
Proof.
  unfold find_user, set_profile; simpl. apply find_map_same.
  intros x. now destruct (User.id x =? User.id u).
Qed.

(** X20. A POST to the profile page changes the name and the address of
    the current user, each to the value of the form or, without one, to
    the value it had, and nothing else: ids, emails and password hashes of
    all users and all other tables are the same, so that every login is
    answered as before. User ids being distinct, the other users are
    untouched. *)
Theorem profile_changes_name_and_address
        (u : User.t) (req : Request) (db : Db float) :
  method req = POST ->
  let name := match MultiDict.get "name" (form req) with
              | Some v => v
              | None => User.name u
              end in
  let address := match MultiDict.get "address" (form req) with
                 | Some v => v
                 | None => User.address u
                 end in
  let db' := db_after (profile u req db) in
  db' = set_profile u name address db
  /\ map User.id (users db') = map User.id (users db)
  /\ map User.email (users db') = map User.email (users db)
  /\ map User.password (users db') = map User.password (users db)
  /\ (NoDup (map User.id (users db)) -> In u (users db) ->
      load_user db' (User.id u)
      = Some (User.mk (User.id u) (User.email u) (User.password u)
                      name address)
      /\ forall x, In x (users db) -> x <> u -> In x (users db'))
  /\ (forall req',
        response (login req' db') = response (login req' db)
        /\ flashed (login req' db') = flashed (login req' db)
        /\ session_after (login req' db') = session_after (login req' db)).
Proof.
  intros Hpost name address db'.
  assert (Hdb : db' = set_profile u name address db)
    by (unfold db', profile; now rewrite Hpost).
  rewrite Hdb. split; [reflexivity|].
  destruct (set_profile_keeps u name address db) as (Hi & He & Hp).
  repeat (split; [assumption|]). split.
  - intros Hpk Hin. split.
    + unfold load_user, set_profile; simpl.
      rewrite find_map_same
        by (intros x; destruct (User.id x =? User.id u) eqn:E; simpl;
            now rewrite ?E).
      destruct (find _ (users db)) as [x|] eqn:Hx.
      * apply find_some in Hx as [Hxin Hx]. simpl. rewrite Hx.
        apply Z.eqb_eq in Hx.
        now rewrite (NoDup_map_eq User.id (users db) x u Hpk Hxin Hin Hx).
      * apply find_none with (x := u) in Hx; [|assumption].
        now rewrite Z.eqb_refl in Hx.
    + intros x Hx Hne. unfold set_profile; simpl.
      apply in_map_iff. exists x. split; [|assumption].
      destruct (User.id x =? User.id u) eqn:E; [|reflexivity].
      apply Z.eqb_eq in E. exfalso. apply Hne.
      now apply (NoDup_map_eq User.id (users db)).
  - intros req'. unfold login. destruct (method req'); [now repeat split|].
    destruct (bind _ _) as [[email pw]|]; [|now repeat split].
    rewrite find_user_set_profile.
    destruct (find_user db email) as [x|]; simpl; [|now repeat split].
    destruct (User.id x =? User.id u); simpl;
      destruct (check_password_hash (User.password x) pw);
      now repeat split.
Qed.

(** *** More on the catalogue *)

(** The query of [home] before it is ordered. *)
Lemma home_query_perm (req : Request) (db : Db float) :
  Permutation (home_query req db) (filter (shown req) (join_category db)).
Proof.
  unfold home_query.
  match goal with
  | |- Permutation (if _ then order_by _ ?q
                    else if _ then order_by _ ?q else order_by _ ?q) _ =>
      assert (Hq : q = filter (shown req) (join_category db));
      [|rewrite Hq;
        destruct (String.eqb _ "price_low");
        [|destruct (String.eqb _ "price_high")]; apply order_by_perm]
  end.
  unfold shown.
  destruct (MultiDict.get "search" (args req)) as [[|a s]|];
    destruct (MultiDict.get "category" (args req)) as [[|b c]|]; simpl;
    try destruct (py_int (String b c)); simpl;
    rewrite ?filter_filter;
    try (symmetry; apply filter_all; reflexivity);
    try (apply filter_ext; intros p;
         rewrite ?andb_true_r; reflexivity).
Qed.

(** X21. Every product on a page of [home] is a product of the store
    that passes the filters of the request: with a search that is not
    empty, its name contains the search; with a category that is a number,
    its category is that one. *)
Theorem home_filters_apply
        (req : Request) (db : Db float) (p : Product.t float) :
  In p (items (home_page req db)) ->
  In p (products db)
  /\ (forall s, MultiDict.get "search" (args req) = Some s -> s <> "" ->
        sql_contains (Product.name p) s = true)
  /\ (forall c cid, MultiDict.get "category" (args req) = Some c ->
        c <> "" -> py_int c = Some cid ->
        Product.category_id p = Some cid).
Proof.
  intros Hin.
  destruct (home_page_items req db) as (n & m & Hitems & _).
  rewrite Hitems in Hin. apply firstn_in, skipn_in in Hin.
  apply (Permutation_in _ (home_query_perm req db)) in Hin.
  apply filter_In in Hin as [Hjoin Hshown].
  unfold shown in Hshown. apply andb_true_iff in Hshown as [Hs Hc].
  split; [|split].
  - unfold join_category in Hjoin.
    apply in_flat_map in Hjoin as (q & Hq & Hp).
    apply in_map_iff in Hp as (c & <- & _). exact Hq.
  - intros s Hget Hne. rewrite Hget in Hs.
    destruct s; [congruence | exact Hs].
  - intros c cid Hget Hne Hint. rewrite Hget in Hc.
    destruct c; [congruence|]. rewrite Hint in Hc.
    destruct (Product.category_id p) as [k|]; [|discriminate].
    apply Z.eqb_eq in Hc. now subst.
Qed.

Lemma filter_one_id (cid : Z) (cs : list Category.t) :
  NoDup (map Category.id cs) ->
  map (fun _ : Category.t => tt) (filter (fun c => Category.id c =? cid) cs)
  = if existsb (fun c => Category.id c =? cid) cs then [tt] else [].
Proof.
  induction cs as [|a cs IH]; simpl; intros Hnd; [reflexivity|].
  inversion Hnd as [|? ? Ha Hcs]; subst.
  destruct (Category.id a =? cid) eqn:E; simpl; [|now apply IH].
  rewrite filter_none; [reflexivity|].
  intros x Hx. apply Z.eqb_neq. intros Hid. apply Ha.
  apply Z.eqb_eq in E. rewrite E, <- Hid. now apply in_map.
Qed.

Lemma join_category_filter (db : Db float) :
  NoDup (map Category.id (categories db)) ->
  join_category db = filter (has_category db) (products db).
Proof.
  intros Hnd. unfold join_category, has_category.
  induction (products db) as [|p ps IH]; simpl; [reflexivity|].
  rewrite IH. destruct (Product.category_id p) as [cid|].
  - pose proof (filter_one_id cid (categories db) Hnd) as Hone.
    destruct (existsb _ (categories db));
      destruct (filter _ (categories db)) as [|c [|c' cs]];
      simpl in *; try discriminate; reflexivity.
  - rewrite filter_none; [reflexivity | reflexivity].
Qed.

(** X22. The listing of [home] loses no product and repeats none: the
    query that is paginated is a rearrangement of the products joined with
    their categories that pass the filters; the ids of the categories
    being distinct, of the products of the store that have a category and
    pass the filters. *)
Theorem home_lists_all_matches (req : Request) (db : Db float) :
  Permutation (home_query req db) (filter (shown req) (join_category db))
  /\ total (home_page req db) = Z.of_nat (List.length (home_query req db))
  /\ (NoDup (map Category.id (categories db)) ->
      Permutation (home_query req db)
                  (filter (fun p => has_category db p && shown req p)
                          (products db))).
Proof.
  split; [apply home_query_perm|]. split; [reflexivity|].
  intros Hnd. rewrite home_query_perm, (join_category_filter db Hnd).
  now rewrite filter_filter.
Qed.

Lemma firstn_skipn_add {A} (a b : nat) (q : list A) :
  (firstn a q ++ firstn b (skipn a q))%list = firstn (a + b) q.
Proof.
  revert q. induction a as [|a IH]; intros q; [reflexivity|].
  destruct q as [|x q]; simpl.
  - now rewrite firstn_nil.
  - now rewrite IH.
Qed.

Lemma pages_concat {A} (c : nat) (q : list A) (n : nat) :
  List.concat (map (fun k => firstn c (skipn (c * (k - 1)) q)) (seq 1 n))
  = firstn (c * n) q.
Proof.
  induction n as [|n IH]; [now rewrite Nat.mul_0_r|].
  rewrite seq_S, map_app, concat_app, IH. simpl.
  rewrite app_nil_r, Nat.sub_0_r, firstn_skipn_add.
  f_equal. lia.
Qed.

Lemma home_query_at_page (k : string) (req : Request) (db : Db float) :
  home_query (at_page k req) db = home_query req db.
Proof. reflexivity. Qed.

(** X23. The pages of [home] cut the listing in slices of 6: the pages
    1 to [n] of a request, one after the other, are the first [6 n]
    products of its query, so that, with enough pages, every product of
    the query is on one page. A request without page, with a page that is
    not a number or with a page below 1 gets page 1. *)
Theorem home_pages_cover
        (req : Request) (db : Db float) (label : nat -> string) (n : nat) :
  (forall k, (1 <= k <= n)%nat -> py_int (label k) = Some (Z.of_nat k)) ->
  List.concat (map (fun k => items (home_page (at_page (label k) req) db))
              (seq 1 n))
  = firstn (6 * n) (home_query req db)
  /\ ((6 * n >= List.length (home_query req db))%nat ->
      List.concat (map (fun k => items (home_page (at_page (label k) req) db))
                  (seq 1 n))
      = home_query req db)
  /\ (match v <- MultiDict.get "page" (args req);; py_int v with
      | Some page => page < 1
      | None => True
      end ->
      home_page req db = paginate 1 6 (home_query req db)).
Proof.
  intros Hlabel.
  assert (Hcat : List.concat (map (fun k => items (home_page
                                               (at_page (label k) req) db))
                             (seq 1 n))
                 = firstn (6 * n) (home_query req db)).
  { rewrite <- (pages_concat 6 (home_query req db) n). f_equal.
    apply map_ext_in. intros k Hk. apply in_seq in Hk.
    unfold home_page. rewrite home_query_at_page.
    cbn [at_page args MultiDict.get String.eqb Ascii.eqb Bool.eqb bind].
    rewrite Hlabel by lia. unfold paginate. cbn [items].
    replace (Z.of_nat k <? 1) with false by (symmetry; apply Z.ltb_ge; lia).
    f_equal. f_equal. lia. }
  split; [exact Hcat|]. split.
  - intros Hlen. rewrite Hcat. now apply firstn_all2.
  - unfold home_page.
    destruct (bind _ _) as [page|]; [|reflexivity].
    intros Hlt. unfold paginate. apply Z.ltb_lt in Hlt. now rewrite Hlt.
Qed.

(** X24. With [sort=price_low] the products of a page of [home] are in an
    order in which the price never decreases, the store's order on prices
    being total; with no sort, or one that is neither [price_low] nor
    [price_high], they are in the order of their names. *)
Theorem home_sorts_by_price_low_and_name (req : Request) (db : Db float) :
  ((forall a b : float, float_leb a b = true \/ float_leb b a = true) ->
   MultiDict.get "sort" (args req) = Some "price_low" ->
   Sorted (fun a b => float_leb (Product.price a) (Product.price b) = true)
          (items (home_page req db)))
  /\ ((forall s, MultiDict.get "sort" (args req) = Some s ->
                 s <> "price_low" /\ s <> "price_high") ->
      Sorted (fun a b => String.leb (Product.name a) (Product.name b) = true)
             (items (home_page req db))).
Proof.
  destruct (home_page_items req db) as (n & m & -> & _). split.
  - intros Htotal Hsort. apply firstn_sorted, skipn_sorted.
    unfold home_query. rewrite Hsort. simpl.
    apply (order_by_sorted _ price_asc). intros a b. apply Htotal.
  - intros Hsort. apply firstn_sorted, skipn_sorted.
    unfold home_query.
    assert (Hname : forall q : list (Product.t float),
               Sorted (fun a b => String.leb (Product.name a)
                                             (Product.name b) = true)
                      (order_by name_asc q)).
    { intros q. apply (order_by_sorted _ name_asc).
      intros a b. apply String.leb_total. }
    destruct (MultiDict.get "sort" (args req)) as [s|]; [|apply Hname].
    destruct (Hsort s eq_refl) as [Hlow Hhigh].
    apply String.eqb_neq in Hlow, Hhigh. rewrite Hlow, Hhigh. apply Hname.
Qed.

(** *** The stores the application reaches *)

Lemma dispatch_well_formed (route : Route) (req : Request) (db : Db float) :
  well_formed db -> well_formed (db_after (dispatch route req db)).
Proof.
  intros (Hk & Hr & Ho & Hc & Hs & He). unfold well_formed.
  split; [now apply dispatch_keys_ok|].
  split; [now apply dispatch_refs_ok|].
  split; [now apply dispatch_one_line|].
  split; [now apply dispatch_ok|].
  split; [|now apply dispatch_emails_unique].
  destruct Hk as (_ & _ & Hp & _).
  now destruct (sold_from_stock_ok _ _
                  (dispatch_sold_from route req db Hc Hs Hp)).
Qed.

Lemma served_well_formed (db db' : Db float) :
  well_formed db -> served db db' -> well_formed db'.
Proof.
  intros Hwf Hserved. induction Hserved as [|db' route req _ IH];
    [assumption|].
  now apply dispatch_well_formed.
Qed.

(** X25. The invariants of the store hold along every sequence of
    requests: from a store with distinct ids, valid references, one cart
    line for a user and a product, quantities in [1,100], no negative
    stock and distinct emails, the application reaches only such
    stores. *)
Theorem served_stores_well_formed (db db' : Db float) :
  well_formed db -> served db db' -> well_formed db'.
Proof. exact (served_well_formed db db'). Qed.




(** *** The demo data *)

Section Seeded.

Variable float_literal : string -> float.









End Seeded.

End Properties.

(** ** The properties on the demo store *)

Import Cents.

Lemma checkout_short_stock_aborts_demo :
  db_after (checkout shopper (post []) greedy) = greedy
  /\ ~ placed (checkout shopper (post []) greedy)
  /\ exists item p,
       In item (user_cart greedy shopper) /\ short greedy item p
       /\ checkout shopper (post []) greedy
          = mkReply (Redirect "cart")
                    ["Not enough stock for " ++ Product.name p
                       ++ ". Available: " ++ Py.str (Product.stock p)]
                    greedy (Some 1).
Proof.
  destruct (checkout_short_stock_aborts shopper (post []) greedy)
    as (Hdb & Hnot & Hflash).
  - reflexivity.
  - exists (CartItem.mk 3 1 6 15),
           (Product.mk 6 "MacBook Pro 16" "M3 Pro chip" 249999 "macbook"
                       (Some 1) 3).
    split; [vm_compute; auto|]. split; [reflexivity | vm_compute; reflexivity].
  - split; [exact Hdb|]. split; [exact Hnot|]. apply Hflash.
    intros item Hin. vm_compute in Hin.
    destruct Hin as [<-|[<-|[]]]; vm_compute; discriminate.
Defined.

Example split_key :
  Py.split "_" "quantity_5_7" = ["quantity"; "5"; "7"]
  /\ Py.split "_" "quantity_" = ["quantity"; ""].
Proof. now split. Qed.

Example form_items :
  MultiDict.items [("a", "1"); ("b", "2"); ("a", "3")]
  = [("a", "1"); ("b", "2")].
Proof. reflexivity. Qed.

Example checkout_greedy :
  checkout shopper (post []) greedy
  = mkReply (Redirect "cart")
            ["Not enough stock for MacBook Pro 16. Available: 3"]
            greedy (Some 1).
Proof. reflexivity. Qed.

Lemma checkout_empties_cart_and_totals_demo :
  let db' := db_after (checkout shopper (post []) demo) in
  user_cart db' shopper = []
  /\ exists order new,
       orders db' = (orders demo ++ [order])%list
       /\ order_items db' = (order_items demo ++ new)%list
       /\ order_lines db' order = new
       /\ Order.total order = py_sum (map subtotal (order_lines db' order)).
Proof.
  destruct (checkout_empties_cart_and_totals shopper (post []) demo)
    as (Hcart & order & new & Ho & Hi & _ & _ & _ & Hlines).
  - reflexivity.
  - split; [exact Hcart|]. exists order, new.
    split; [exact Ho|]. split; [exact Hi|]. apply Hlines.
    intros oi [<-|[]]. vm_compute. auto.
Defined.

Example checkout_demo_total :
  map (@Order.total Z) (orders (db_after (checkout shopper (post []) demo)))
  = [12999; 2 * 12999 + 1 * 8999].
Proof. reflexivity. Qed.

Lemma checkout_decrements_stock_demo :
  get_product (db_after (checkout shopper (post []) demo)) 3
  = Some (Product.with_stock
            (Z.max 0 (20 - purchased (user_cart demo shopper) 3))
            (Product.mk 3 "Nike Air Max 90" "Classic running shoes" 12999
                        "nike" (Some 4) 20)).
Proof.
  apply (checkout_decrements_stock shopper (post []) demo 3).
  - intros it Hin. vm_compute in Hin.
    destruct Hin as [<-|[<-|[]]]; simpl; lia.
  - reflexivity.
  - vm_compute. auto.
  - reflexivity.
Defined.

Lemma checkout_snapshots_price_demo :
  let db' := db_after (checkout shopper (post []) demo) in
  exists new,
    order_items db' = (order_items demo ++ new)%list
    /\ (forall oi, In oi new ->
          exists p, get_product demo (OrderItem.product_id oi) = Some p
                    /\ OrderItem.price oi = Product.price p)
    /\ (forall f, orders (update_products f db') = orders db'
                  /\ order_items (update_products f db') = order_items db')
    /\ (forall db'', later db' db'' -> ledger_kept db' db'').
Proof.
  apply (checkout_snapshots_price shopper (post []) demo).
  reflexivity.
Defined.

Example price_change_keeps_orders :
  let db' := db_after (checkout shopper (post []) demo) in
  let db'' :=
    update_products
      (fun p => if Product.id p =? 3 then Product.with_price 1 p else p) db' in
  option_map (@Product.price Z) (get_product db'' 3) = Some 1
  /\ map (@OrderItem.price Z) (order_items db'') = [12999; 12999; 8999]
  /\ map (@Order.total Z) (orders db'') = [12999; 34997].
Proof. repeat split. Qed.



Lemma cart_quantity_in_range_demo :
  cart_ok (db_after (dispatch Cart
                       (post [("update", "1"); ("quantity_3", "-5");
                              ("quantity_4", "500")]) demo))
  /\ cart_ok (db_after (add_to_cart 3 shopper (get []) demo))
  /\ update_field shopper demo ("quantity_3", "many") = demo
  /\ 1 <= Z.min (Z.max 1 (-5)) 100 <= 100.
Proof.
  assert (Hok : cart_ok demo) by (repeat constructor; simpl; lia).
  destruct (cart_quantity_in_range demo Hok)
    as (Hroute & _ & Hadd & Hskip & Hclamp).
  split; [apply Hroute|]. split; [apply Hadd|].
  split; [apply Hskip; reflexivity|].
  apply (Hclamp shopper "quantity_3" "-5" (-5)). reflexivity.
Defined.

Example add_to_cart_twice :
  let once := db_after (add_to_cart 8 shopper (get []) demo) in
  let twice := db_after (add_to_cart 8 shopper (get []) once) in
  user_cart twice shopper
  = [CartItem.mk 1 1 3 2; CartItem.mk 3 1 4 1; CartItem.mk 4 1 8 2].
Proof. reflexivity. Qed.

Example cart_update_clamps :
  map CartItem.quantity
      (cart_items
         (db_after (dispatch Cart
                      (post [("update", "1"); ("quantity_3", "-5");
                             ("quantity_4", "500"); ("quantity_6", "x")])
                      demo)))
  = [1; 1; 100].
Proof. reflexivity. Qed.

Lemma home_sorts_by_price_and_pages_demo :
  (List.length (items (home_page (get [("sort", "price_high")]) demo)) <= 6)%nat
  /\ Sorted price_not_above
            (items (home_page (get [("sort", "price_high")]) demo)).
Proof.
  destruct (home_sorts_by_price_and_pages (get [("sort", "price_high")]) demo)
    as (_ & Hlen & Hsorted).
  split; [exact Hlen|]. apply Hsorted; [|reflexivity].
  intros a b. change (Z.leb a b = true \/ Z.leb b a = true).
  rewrite !Z.leb_le. lia.
Defined.

Example home_price_high :
  map (@Product.price Z) (items (home_page (get [("sort", "price_high")]) demo))
  = [249999; 99999; 79999; 14999; 12999; 8999].
Proof. reflexivity. Qed.

Lemma register_once_then_login_demo :
  let fields := [("email", "bob@example.com"); ("password", "hunter2");
                 ("name", "Bob"); ("address", "2 Side St")] in
  let taken := [("email", "demo@example.com"); ("password", "hunter2");
                ("name", "Bob"); ("address", "2 Side St")] in
  register (post taken) demo
  = mkReply (Render "register.html" NoCtx) ["Email already registered"]
            demo (Some 1)
  /\ exists user,
       users (db_after (register (post fields) demo))
       = (users demo ++ [user])%list
       /\ login (post fields) (db_after (register (post fields) demo))
          = mkReply (Redirect "home") []
                    (db_after (register (post fields) demo))
                    (Some (User.id user)).
Proof.
  simpl. split.
  - apply (register_once_then_login
             (post [("email", "demo@example.com"); ("password", "hunter2");
                    ("name", "Bob"); ("address", "2 Side St")])
             demo "demo@example.com" "hunter2" "Bob" "2 Side St");
      try reflexivity.
    exists shopper. split; [now left | reflexivity].
  - destruct (register_once_then_login
                (post [("email", "bob@example.com"); ("password", "hunter2");
                       ("name", "Bob"); ("address", "2 Side St")])
                demo "bob@example.com" "hunter2" "Bob" "2 Side St")
      as (_ & Hfresh); try reflexivity.
    destruct Hfresh as (user & _ & Husers & _ & Hpw & Hlogin).
    + intros u [<-|[<-|[]]]; discriminate.
    + exists user. split; [exact Husers|].
      apply Hlogin; try reflexivity. rewrite Hpw. reflexivity.
Defined.

Lemma checkout_frame_demo :
  let db' := db_after (checkout shopper (post []) demo) in
  Forall2 (restocked (user_cart demo shopper)) (products demo) (products db')
  /\ users db' = users demo
  /\ categories db' = categories demo
  /\ other_carts db' shopper = other_carts demo shopper.
Proof.
  destruct (checkout_frame shopper (post []) demo)
    as (Hprod & _ & _ & _ & Hu & Hc & Hother).
  - reflexivity.
  - split; [exact Hprod|]. split; [exact Hu|]. split; [exact Hc|].
    apply Hother. vm_compute. repeat constructor; simpl; intuition discriminate.
Defined.

Lemma home_skips_uncategorised_demo :
  ~ In (Product.mk 9 "Gift card" "No category" 5000 "gift" None 100)
       (items (home_page (get []) demo)).
Proof.
  apply (home_skips_uncategorised (get []) demo).
  left. reflexivity.
Defined.

(** ** More properties on the demo store *)

Lemma demo_keys_ok : keys_ok demo.
Proof.
  unfold keys_ok. vm_compute.
  repeat split; repeat (constructor; [simpl; intuition discriminate|]);
    constructor.
Defined.

Lemma demo_refs_ok : refs_ok demo.
Proof.
  unfold refs_ok. split; [|split].
  - intros c [<-|[<-|[<-|[]]]]; vm_compute; tauto.
  - intros o [<-|[]]; vm_compute; tauto.
  - intros oi [<-|[]]; vm_compute; tauto.
Defined.

Lemma demo_one_line : one_line demo.
Proof.
  intros uid. unfold demo. cbn -[Z.eqb].
  destruct (1 =? uid); destruct (2 =? uid); cbn -[Z.eqb];
    repeat (constructor; [simpl; intuition discriminate|]); constructor.
Defined.

Lemma demo_cart_ok : cart_ok demo.
Proof. repeat constructor; simpl; lia. Defined.

Lemma demo_stock_ok : stock_ok demo.
Proof. repeat (constructor; [simpl; lia|]). constructor. Defined.

Lemma demo_emails_unique : emails_unique demo.
Proof.
  unfold emails_unique. simpl.
  repeat (constructor; [simpl; intuition discriminate|]); constructor.
Defined.

Lemma demo_well_formed : well_formed demo.
Proof.
  unfold well_formed.
  split; [apply demo_keys_ok|]. split; [apply demo_refs_ok|].
  split; [apply demo_one_line|]. split; [apply demo_cart_ok|].
  split; [apply demo_stock_ok | apply demo_emails_unique].
Defined.

Lemma checkout_placed_iff_demo :
  placed (checkout shopper (post []) demo)
  /\ ~ placed (checkout shopper (post []) greedy).
Proof.
  split.
  - apply (checkout_placed_iff shopper (post []) demo).
    split; [reflexivity|]. split; [discriminate|].
    intros item [<-|[<-|[]]]; eexists; (split; [reflexivity | simpl; lia]).
  - intros Hplaced.
    apply (checkout_placed_iff shopper (post []) greedy) in Hplaced
      as (_ & _ & Hall).
    destruct (Hall (CartItem.mk 3 1 6 15)) as (p & Hp & Hle);
      [vm_compute; auto|].
    vm_compute in Hp. injection Hp as <-. simpl in Hle. lia.
Defined.

Lemma checkout_all_or_nothing_demo :
  checkout shopper (post []) seeded
  = mkReply (Redirect "cart") ["Cart is empty!"] seeded (Some 1).
Proof.
  destruct (checkout_all_or_nothing shopper (post []) seeded)
    as (_ & _ & Hempty).
  apply Hempty; reflexivity.
Defined.

Lemma checkout_charges_shown_total_demo :
  exists order total,
    orders (db_after (checkout shopper (post []) demo))
    = (orders demo ++ [order])%list
    /\ Order.total order = total
    /\ response (checkout shopper (get []) demo)
       = Render "checkout.html" (CartCtx (user_cart demo shopper) total)
    /\ response (cart shopper (get []) demo)
       = Render "cart.html" (CartCtx (user_cart demo shopper) total).
Proof.
  apply (checkout_charges_shown_total shopper (post []) (get []) demo);
    reflexivity.
Defined.

Lemma checkout_takes_exact_quantity_demo :
  option_map (@Product.stock Z)
             (get_product (db_after (checkout shopper (post []) demo)) 3)
  = Some (20 - 2).
Proof.
  destruct (checkout_takes_exact_quantity shopper (post []) demo
              (CartItem.mk 1 1 3 2)
              (Product.mk 3 "Nike Air Max 90" "Classic running shoes" 12999
                          "nike" (Some 4) 20)) as [_ Hstock].
  - reflexivity.
  - vm_compute. repeat (constructor; [simpl; intuition discriminate|]).
    constructor.
  - vm_compute. auto.
  - reflexivity.
  - exact (f_equal (option_map (@Product.stock Z)) Hstock).
Defined.


Lemma cart_touches_own_lines_only_demo :
  let req := post [("update", "1"); ("quantity_3", "50")] in
  map line_key (cart_items (db_after (cart shopper req demo)))
  = map line_key (cart_items demo)
  /\ other_carts (db_after (cart shopper req demo)) shopper
     = other_carts demo shopper.
Proof.
  intros req.
  destruct (cart_touches_own_lines_only 3 shopper req demo) as [Hkeys Hother].
  split; [apply Hkeys; reflexivity|].
  apply Hother. vm_compute.
  repeat (constructor; [simpl; intuition discriminate|]). constructor.
Defined.

Lemma cart_remove_deletes_line_demo :
  let req := post [("remove", "4")] in
  db_after (cart shopper req demo) = delete_cart_item (CartItem.mk 3 1 4 1) demo
  /\ find_cart_item (db_after (cart shopper req demo)) shopper 4 = None.
Proof.
  intros req.
  destruct (cart_remove_deletes_line shopper req demo "4") as [_ Hpid];
    [reflexivity.. |].
  destruct (Hpid 4 eq_refl) as [_ Hline].
  destruct (Hline (CartItem.mk 3 1 4 1) eq_refl) as (Hdb & _ & Hgone).
  split; [exact Hdb|]. apply Hgone. vm_compute.
  repeat (constructor; [simpl; intuition discriminate|]). constructor.
Defined.


Lemma anonymous_request_writes_nothing_demo :
  let req := mkRequest POST [] [] None 42 "pepper" in
  db_after (dispatch Checkout req demo) = demo
  /\ response (dispatch Checkout req demo) = Redirect "login".
Proof.
  intros req.
  destruct (anonymous_request_writes_nothing Checkout req demo)
    as (Hdb & _ & [Hlogin|[_ H405]]).
  - intros uid Huid. discriminate.
  - reflexivity.
  - now split.
  - discriminate.
Defined.

Lemma get_requests_read_only_demo :
  db_after (dispatch Checkout (get []) demo) = demo.
Proof.
  apply (get_requests_read_only Checkout (get []) demo).
  - reflexivity.
  - discriminate.
Defined.

Lemma login_checks_password_demo :
  let req := post [("email", "ann@example.com"); ("password", "guess")] in
  login req demo
  = mkReply (Render "login.html" NoCtx) ["Invalid credentials"] demo (Some 1).
Proof.
  intros req.
  destruct (login_checks_password req demo) as (_ & _ & Hbad & _).
  apply (Hbad "ann@example.com" "guess"); try reflexivity.
  intros user Huser. vm_compute in Huser. injection Huser as <-.
  reflexivity.
Defined.

Lemma emails_stay_unique_demo :
  emails_unique (db_after (dispatch Register new_account demo)).
Proof.
  apply (emails_stay_unique Register new_account demo).
  apply demo_emails_unique.
Defined.

Lemma keys_stay_distinct_demo :
  keys_ok (db_after (dispatch Checkout (post []) demo)).
Proof.
  apply (keys_stay_distinct Checkout (post []) demo). apply demo_keys_ok.
Defined.

Lemma references_stay_valid_demo :
  refs_ok (db_after (dispatch (AddToCart 8) (get []) demo)).
Proof.
  apply (references_stay_valid (AddToCart 8) (get []) demo).
  apply demo_refs_ok.
Defined.

Lemma carts_keep_one_line_demo :
  one_line (db_after (dispatch (AddToCart 3) (get []) demo)).
Proof.
  apply (carts_keep_one_line (AddToCart 3) (get []) demo).
  apply demo_one_line.
Defined.

Lemma stock_only_goes_down_demo :
  Forall2 sold_from (products demo)
          (products (db_after (dispatch Checkout (post []) demo))).
Proof.
  apply (stock_only_goes_down Checkout (post []) demo).
  - apply demo_cart_ok.
  - apply demo_stock_ok.
  - apply demo_keys_ok.
Defined.

Lemma placed_order_in_history_demo :
  let db' := db_after (checkout shopper (post []) demo) in
  exists order,
    orders db' = (orders demo ++ [order])%list
    /\ Order.user_id order = 1
    /\ Order.date order = 42.
Proof.
  destruct (placed_order_in_history shopper (post []) demo)
    as (order & Ho & Hu & Hd & _).
  - reflexivity.
  - exists order. now repeat split.
Defined.

Lemma profile_changes_name_and_address_demo :
  let req := post [("name", "D. User")] in
  load_user (db_after (profile shopper req demo)) 1
  = Some (User.mk 1 "demo@example.com" (Cents.hash "s" "123456") "D. User"
                  "123 Demo St, City").
Proof.
  intros req.
  destruct (profile_changes_name_and_address shopper req demo)
    as (_ & _ & _ & _ & Hload & _).
  - reflexivity.
  - apply Hload; [apply demo_keys_ok | now left].
Defined.

Lemma home_filters_apply_demo :
  let req := get [("search", "Pro"); ("category", "1")] in
  let p := Product.mk 6 "MacBook Pro 16" "M3 Pro chip" 249999 "macbook"
                      (Some 1) 3 in
  In p (products demo)
  /\ sql_contains (Product.name p) "Pro" = true
  /\ Product.category_id p = Some 1.
Proof.
  intros req p.
  destruct (home_filters_apply req demo p) as (Hin & Hs & Hc).
  - vm_compute. auto.
  - split; [exact Hin|]. split.
    + apply Hs; [reflexivity | discriminate].
    + apply (Hc "1"); [reflexivity | discriminate | reflexivity].
Defined.

Lemma home_lists_all_matches_demo :
  Permutation (home_query (get [("category", "4")]) demo)
              (filter (fun p => has_category demo p
                                && shown (get [("category", "4")]) p)
                      (products demo)).
Proof.
  destruct (home_lists_all_matches (get [("category", "4")]) demo)
    as (_ & _ & Hall).
  apply Hall. apply demo_keys_ok.
Defined.

Lemma home_pages_cover_demo :
  List.concat
    (map (fun k => items (home_page
                            (at_page (Py.str (Z.of_nat k)) (get [])) demo))
         (seq 1 2))
  = home_query (get []) demo.
Proof.
  destruct (home_pages_cover (get []) demo
              (fun k => Py.str (Z.of_nat k)) 2) as (_ & Hall & _).
  - intros k Hk. assert (Hk' : k = 1%nat \/ k = 2%nat) by lia.
    destruct Hk' as [-> | ->]; reflexivity.
  - apply Hall. vm_compute. lia.
Defined.

Lemma home_sorts_by_price_low_and_name_demo :
  Sorted (fun a b => Z.leb (Product.price a) (Product.price b) = true)
         (items (home_page (get [("sort", "price_low")]) demo))
  /\ Sorted (fun a b => String.leb (Product.name a) (Product.name b) = true)
            (items (home_page (get []) demo)).
Proof.
  split.
  - destruct (home_sorts_by_price_low_and_name
                (get [("sort", "price_low")]) demo) as [Hlow _].
    apply Hlow; [|reflexivity].
    intros a b. change (Z.leb a b = true \/ Z.leb b a = true).
    rewrite !Z.leb_le. lia.
  - destruct (home_sorts_by_price_low_and_name (get []) demo) as [_ Hname].
    apply Hname. intros s Hs. discriminate.
Defined.

Lemma served_stores_well_formed_demo :
  well_formed
    (db_after (dispatch Register new_account
                 (db_after (dispatch Checkout (post []) demo)))).
Proof.
  apply (served_stores_well_formed demo).
  - apply demo_well_formed.
  - apply served_request, served_request, served_now.
Defined.




Lemma add_to_cart_many_times_demo :
  exists line,
    find_cart_item (add_times 150 8 shopper (get []) demo) shopper 8
    = Some line
    /\ CartItem.quantity line = 100.
Proof.
  apply (add_to_cart_many_times 150 8 shopper (get []) demo).
  - discriminate.
  - reflexivity.
  - lia.
Defined.

Example seeded_catalogue :
  map (fun p => (@Product.id Z p, Product.price p, Product.category_id p))
      (products seeded)
  = [(1, 99999, Some 1); (2, 79999, Some 1); (3, 12999, Some 4);
     (4, 8999, Some 2); (5, 14999, Some 3); (6, 249999, Some 1);
     (7, 6999, Some 2); (8, 2999, Some 4)].
Proof. reflexivity. Qed.
